(** * The gold trade ledger of src/src/App.tsx

    A shallow embedding of the accounting logic of the [App] component:
    the ledger of buy lots ([Trade]) with their sales ([Sell]), the
    handlers that change it ([handleSubmit], [handleSellSubmit],
    [handleDelete], [handleDeleteSell], [handleDeleteBatchSell],
    [handleDeleteBatch]), the derived views ([stats], [displayItems],
    [chartData]) and the two storage effects.

    React state is passed explicitly: a handler is a function from the
    component state to the next one.  The clock ([Date.now()]), the random
    source ([Math.random()]), date parsing and formatting
    ([new Date(s).getTime()], [format]), the rounding of the chart
    ([toFixed]) and the JSON codec are inputs of the functions that call
    them. *)

From Stdlib Require Import ZArith Floats List Sorted Permutation.
From stdpp Require Import base list strings pretty sorting.

Set Warnings "-inexact-float".
Unset Default Proof Using.

(** ** Numbers

    Every quantity, price, fee and identifier of the program is a JavaScript
    [number].  The embedding is written once over the operations the source
    uses, and instantiated at binary64 floats, which is what the program
    runs on. *)

Class Number (num : Type) : Type := {
  num_zero : num;                   (* the literal 0 *)
  num_add : num -> num -> num;      (* a + b *)
  num_sub : num -> num -> num;      (* a - b *)
  num_mul : num -> num -> num;      (* a * b *)
  num_div : num -> num -> num;      (* a / b *)
  num_ltb : num -> num -> bool;     (* a < b *)
  num_leb : num -> num -> bool;     (* a <= b *)
  num_eqb : num -> num -> bool;     (* a === b *)
  num_same : num -> num -> bool;    (* SameValueZero, the test of includes *)
  num_truthy : num -> bool;         (* !!a *)
  num_of_Z : Z -> num;              (* an integer: Date.now(), a length *)
  overdraft_tol : num;              (* the literal 0.00001 *)
  sold_tol : num;                   (* the literal 0.0001 *)
}.

(** [a > b] is [b < a], also on NaN, where both are false. *)
Definition num_gtb {num} `{Number num} (a b : num) : bool := num_ltb b a.

(** *** Binary64, as the program runs *)

Definition float_same (x y : float) : bool :=
  (PrimFloat.eqb x y || (PrimFloat.is_nan x && PrimFloat.is_nan y))%bool.

Definition float_truthy (x : float) : bool :=
  negb (PrimFloat.eqb x 0%float || PrimFloat.is_nan x)%bool.

Definition float_of_Z (z : Z) : float :=
  match z with
  | Z0 => 0%float
  | Zpos _ => PrimFloat.of_uint63 (Uint63.of_Z z)
  | Zneg p => PrimFloat.opp (PrimFloat.of_uint63 (Uint63.of_Z (Zpos p)))
  end.

#[export] Instance float_Number : Number float := {|
  num_zero := 0%float;
  num_add := PrimFloat.add;
  num_sub := PrimFloat.sub;
  num_mul := PrimFloat.mul;
  num_div := PrimFloat.div;
  num_ltb := PrimFloat.ltb;
  num_leb := PrimFloat.leb;
  num_eqb := PrimFloat.eqb;
  num_same := float_same;
  num_truthy := float_truthy;
  num_of_Z := float_of_Z;
  overdraft_tol := 0.00001%float;
  sold_tol := 0.0001%float;
|}.

(** [parseFloat(x.toString())], what a number is after it went through a
    form field untouched: the text of a binary64 number reads back as the
    same number, except that the text of [-0] is ["0"]. *)
Definition float_reparse (x : float) : float :=
  if PrimFloat.eqb x 0%float then 0%float else x.

(** [parseFloat(x.toFixed(2))] on binary64.  [toFixed(2)] writes the
    integer [n] for which [n / 100] is nearest to the exact value of [|x|],
    the larger one on a tie, with the sign of [x] in front; [parseFloat]
    reads the number nearest to [n / 100], which the division of binary64
    gives since [n] is exact below 2^53.  From 2^46 on the numbers are more
    than 0.01 apart, so [x] itself is read back, as are [NaN] and the
    infinities from their names; [-0] is written without its sign. *)
Definition float_round2 (x : float) : float :=
  match Prim2SF x with
  | S754_finite s m e =>
      if PrimFloat.leb 70368744177664%float (PrimFloat.abs x) then x
      else
        let n :=
          match e with
          | Zneg p => (200 * Zpos m + 2 ^ Zpos p) / (2 * 2 ^ Zpos p)
          | _ => 100 * Zpos m * 2 ^ e
          end%Z in
        let r := PrimFloat.div (float_of_Z n) 100%float in
        if s then PrimFloat.opp r else r
  | S754_zero _ => 0%float
  | _ => x
  end.

(** ** The ledger *)

Section Ledger.
Context {num : Type} `{Number num}.

(** [interface Sell]; [batch_id?: string] is absent ([None]) on a single
    sale. *)
Record Sell : Type := {
  s_id : num;
  s_trade_id : num;
  s_sell_price : num;
  s_quantity : num;
  s_sell_date : string;
  s_fee : num;
  s_notes : option string;
  s_batch_id : option string;
}.

(** [interface Trade]: one buy lot and the sales recorded against it. *)
Record Trade : Type := {
  t_id : num;
  t_buy_price : num;
  t_quantity : num;
  t_buy_date : string;
  t_notes : option string;
  t_sells : list Sell;
}.

(** [{ ...t, sells: ss }] *)
Definition with_sells (t : Trade) (ss : list Sell) : Trade :=
  {| t_id := t_id t; t_buy_price := t_buy_price t; t_quantity := t_quantity t;
     t_buy_date := t_buy_date t; t_notes := t_notes t; t_sells := ss |}.

(** [xs.reduce((acc, x) => acc + f(x), 0)] *)
Definition sum_by {A : Type} (f : A -> num) (xs : list A) : num :=
  fold_left (fun acc x => num_add acc (f x)) xs num_zero.

(** [t.sells.reduce((acc, s) => acc + s.quantity, 0)] *)
Definition soldWeight (t : Trade) : num := sum_by s_quantity (t_sells t).

(** [t.quantity - soldWeight] *)
Definition remaining (t : Trade) : num := num_sub (t_quantity t) (soldWeight t).

(** [(s.sell_price - t.buy_price) * s.quantity - s.fee], the expression the
    source repeats wherever it reports a profit. *)
Definition saleProfit (t : Trade) (s : Sell) : num :=
  num_sub (num_mul (num_sub (s_sell_price s) (t_buy_price t)) (s_quantity s)) (s_fee s).

(** [ids.includes(x)] *)
Definition includes (ids : list num) (x : num) : bool :=
  existsb (fun i => num_same i x) ids.

(** The truth value of an optional string: [undefined] and [''] are falsy. *)
Definition str_truthy (o : option string) : bool :=
  match o with
  | Some s => negb (bool_decide (s = ""))
  | None => false
  end.

(** [s.batch_id === batchId] *)
Definition batch_is (batchId : string) (s : Sell) : bool :=
  bool_decide (s_batch_id s = Some batchId).

(** [str || null] on a form field *)
Definition or_null (s : string) : option string :=
  if bool_decide (s = "") then None else Some s.

(** ** Component state

    The part of [App]'s state that the handlers read or write; what only
    drives the view (open modals, chart visibility, the text of the forms
    after a submit) is left out. *)
Record State : Type := {
  trades : list Trade;
  sellingTradeId : option num;
  selectedTradeIds : list num;
  isBatchSelling : bool;
  editingTrade : option Trade;
  editingSell : option (Sell * num);   (* { sell, tradeId } *)
  loading : bool;
}.

Definition set_trades (st : State) (ts : list Trade) : State :=
  {| trades := ts; sellingTradeId := sellingTradeId st;
     selectedTradeIds := selectedTradeIds st; isBatchSelling := isBatchSelling st;
     editingTrade := editingTrade st; editingSell := editingSell st;
     loading := loading st |}.

(** [useState] initial values *)
Definition initial_state : State :=
  {| trades := []; sellingTradeId := None; selectedTradeIds := [];
     isBatchSelling := false; editingTrade := None; editingSell := None;
     loading := true |}.

(** The buy form after [parseFloat] of its two numeric fields. *)
Record TradeForm : Type := {
  tf_buy_price : num;
  tf_quantity : num;
  tf_buy_date : string;
  tf_notes : string;
}.

(** The sell form after [parseFloat] of its three numeric fields. *)
Record SellForm : Type := {
  sf_sell_price : num;
  sf_quantity : num;
  sf_sell_date : string;
  sf_fee : num;
  sf_notes : string;
}.

(** [{ ...t, ...newTradeData }]: the four form fields replace the lot's, the
    id and the sales stay. *)
Definition edit_trade (form : TradeForm) (t : Trade) : Trade :=
  {| t_id := t_id t; t_buy_price := tf_buy_price form; t_quantity := tf_quantity form;
     t_buy_date := tf_buy_date form; t_notes := or_null (tf_notes form);
     t_sells := t_sells t |}.

(** [handleSubmit], lines 130-158: no check of any kind on either branch. *)
Definition handleSubmit (st : State) (form : TradeForm) (now : Z) : State :=
  match editingTrade st with
  | Some et =>
      {| trades := map (fun t => if num_eqb (t_id t) (t_id et) then edit_trade form t else t)
                       (trades st);
         sellingTradeId := sellingTradeId st; selectedTradeIds := selectedTradeIds st;
         isBatchSelling := isBatchSelling st; editingTrade := None;
         editingSell := editingSell st; loading := loading st |}
  | None =>
      let newTrade :=
        {| t_id := num_of_Z now; t_buy_price := tf_buy_price form;
           t_quantity := tf_quantity form; t_buy_date := tf_buy_date form;
           t_notes := or_null (tf_notes form); t_sells := [] |} in
      set_trades st (newTrade :: trades st)
  end.

(** [startEditTrade] as far as the state above goes. *)
Definition startEditTrade (st : State) (t : Trade) : State :=
  {| trades := trades st; sellingTradeId := sellingTradeId st;
     selectedTradeIds := selectedTradeIds st; isBatchSelling := isBatchSelling st;
     editingTrade := Some t; editingSell := editingSell st; loading := loading st |}.

(** How [handleSellSubmit] ends. *)
Inductive Outcome : Type :=
  | Applied        (* the ledger was updated *)
  | NoTarget       (* [if (!tradeId) return] or [if (!trade) return] *)
  | Overdraft.     (* the alert of line 214, then [return] *)

(** The batch branch's update of the ledger, lines 172-191.  [random i] is
    the value [Math.random()] returns while lot number [i] is mapped. *)
Definition batchSellTrades (ids : list num) (sellPrice : num) (sellDate : string)
    (feePerTrade : num) (notes : option string) (batchId : string)
    (now : Z) (random : nat -> num) (prev : list Trade) : list Trade :=
  imap (fun i t =>
    if includes ids (t_id t) then
      let remaining := num_sub (t_quantity t) (sum_by s_quantity (t_sells t)) in
      if num_leb remaining num_zero then t
      else
        let newSell :=
          {| s_id := num_add (num_of_Z now) (random i); s_trade_id := t_id t;
             s_sell_price := sellPrice; s_quantity := remaining;
             s_sell_date := sellDate; s_fee := feePerTrade; s_notes := notes;
             s_batch_id := Some batchId |} in
        with_sells t (newSell :: t_sells t)
    else t) prev.

(** [sellingTradeId || editingSell?.tradeId], then [if (!tradeId) return]. *)
Definition target_tradeId (st : State) : option num :=
  let fromEdit :=
    match editingSell st with
    | Some (_, tid) => if num_truthy tid then Some tid else None
    | None => None
    end in
  match sellingTradeId st with
  | Some x => if num_truthy x then Some x else fromEdit
  | None => fromEdit
  end.

(** [s.id !== editingSell?.sell.id]: with no sale under edit the right side
    is [undefined] and every sale passes. *)
Definition not_edited (st : State) (s : Sell) : bool :=
  match editingSell st with
  | Some (es, _) => negb (num_eqb (s_id s) (s_id es))
  | None => true
  end.

(** [{ ...s, ...sellData }] *)
Definition edit_sell (form : SellForm) (s : Sell) : Sell :=
  {| s_id := s_id s; s_trade_id := s_trade_id s; s_sell_price := sf_sell_price form;
     s_quantity := sf_quantity form; s_sell_date := sf_sell_date form;
     s_fee := sf_fee form; s_notes := or_null (sf_notes form);
     s_batch_id := s_batch_id s |}.

(** [handleSellSubmit], lines 160-243.  [now] is the reading of
    [Date.now()] during the call (the batch id and the new ids are made
    within the same millisecond), [random] the values of [Math.random()]. *)
Definition handleSellSubmit (st : State) (form : SellForm) (now : Z)
    (random : nat -> num) : State * Outcome :=
  if isBatchSelling st then
    let sellPrice := sf_sell_price form in
    let sellDate := sf_sell_date form in
    let totalFee := sf_fee form in
    let notes := or_null (sf_notes form) in
    let batchId := "batch-" +:+ pretty now in
    let feePerTrade :=
      num_div totalFee (num_of_Z (Z.of_nat (length (selectedTradeIds st)))) in
    ({| trades := batchSellTrades (selectedTradeIds st) sellPrice sellDate feePerTrade
                    notes batchId now random (trades st);
        sellingTradeId := sellingTradeId st; selectedTradeIds := [];
        isBatchSelling := false; editingTrade := editingTrade st;
        editingSell := editingSell st; loading := loading st |}, Applied)
  else
    match target_tradeId st with
    | None => (st, NoTarget)
    | Some tradeId =>
        match find (fun t => num_eqb (t_id t) tradeId) (trades st) with
        | None => (st, NoTarget)
        | Some trade =>
            let otherSells := List.filter (not_edited st) (t_sells trade) in
            let totalSoldOther := sum_by s_quantity otherSells in
            if num_gtb (sf_quantity form)
                 (num_add (num_sub (t_quantity trade) totalSoldOther) overdraft_tol)
            then (st, Overdraft)
            else
              match editingSell st with
              | Some (es, _) =>
                  ({| trades :=
                        map (fun t =>
                          if num_eqb (t_id t) tradeId then
                            with_sells t
                              (map (fun s => if num_eqb (s_id s) (s_id es)
                                             then edit_sell form s else s) (t_sells t))
                          else t) (trades st);
                      sellingTradeId := None; selectedTradeIds := selectedTradeIds st;
                      isBatchSelling := isBatchSelling st; editingTrade := editingTrade st;
                      editingSell := None; loading := loading st |}, Applied)
              | None =>
                  let newSell :=
                    {| s_id := num_of_Z now; s_trade_id := tradeId;
                       s_sell_price := sf_sell_price form; s_quantity := sf_quantity form;
                       s_sell_date := sf_sell_date form; s_fee := sf_fee form;
                       s_notes := or_null (sf_notes form); s_batch_id := None |} in
                  ({| trades :=
                        map (fun t => if num_eqb (t_id t) tradeId
                                      then with_sells t (newSell :: t_sells t) else t)
                            (trades st);
                      sellingTradeId := None; selectedTradeIds := selectedTradeIds st;
                      isBatchSelling := isBatchSelling st; editingTrade := editingTrade st;
                      editingSell := editingSell st; loading := loading st |}, Applied)
              end
        end
    end.

(** [toggleSelection] *)
Definition toggleSelection (st : State) (id : num) : State :=
  {| trades := trades st; sellingTradeId := sellingTradeId st;
     selectedTradeIds :=
       if includes (selectedTradeIds st) id
       then List.filter (fun i => negb (num_eqb i id)) (selectedTradeIds st)
       else selectedTradeIds st ++ [id];
     isBatchSelling := isBatchSelling st; editingTrade := editingTrade st;
     editingSell := editingSell st; loading := loading st |}.

(** The header button of lines 420-424 and the [onSell] and [onEditSell]
    callbacks of lines 563-566, as far as the state above goes. *)
Definition startBatchSell (st : State) : State :=
  {| trades := trades st; sellingTradeId := sellingTradeId st;
     selectedTradeIds := selectedTradeIds st; isBatchSelling := true;
     editingTrade := editingTrade st; editingSell := editingSell st;
     loading := loading st |}.

Definition startSell (st : State) (id : num) : State :=
  {| trades := trades st; sellingTradeId := Some id;
     selectedTradeIds := selectedTradeIds st; isBatchSelling := isBatchSelling st;
     editingTrade := editingTrade st; editingSell := editingSell st;
     loading := loading st |}.

Definition startEditSell (st : State) (tradeId : num) (sell : Sell) : State :=
  {| trades := trades st; sellingTradeId := sellingTradeId st;
     selectedTradeIds := selectedTradeIds st; isBatchSelling := isBatchSelling st;
     editingTrade := editingTrade st; editingSell := Some (sell, tradeId);
     loading := loading st |}.

(** [handleDelete] *)
Definition handleDelete (st : State) (id : num) : State :=
  {| trades := List.filter (fun t => negb (num_eqb (t_id t) id)) (trades st);
     sellingTradeId := sellingTradeId st;
     selectedTradeIds := List.filter (fun i => negb (num_eqb i id)) (selectedTradeIds st);
     isBatchSelling := isBatchSelling st; editingTrade := editingTrade st;
     editingSell := editingSell st; loading := loading st |}.

(** [handleDeleteSell] *)
Definition handleDeleteSell (st : State) (tradeId sellId : num) : State :=
  set_trades st
    (map (fun t =>
       if num_eqb (t_id t) tradeId
       then with_sells t (List.filter (fun s => negb (num_eqb (s_id s) sellId)) (t_sells t))
       else t) (trades st)).

(** [handleDeleteBatchSell]: inside one lot's card, the sales of one group. *)
Definition handleDeleteBatchSell (st : State) (tradeId : num) (sellIds : list num) : State :=
  set_trades st
    (map (fun t =>
       if num_eqb (t_id t) tradeId
       then with_sells t (List.filter (fun s => negb (includes sellIds (s_id s))) (t_sells t))
       else t) (trades st)).

(** [handleDeleteBatch], lines 379-381: the filter runs over the lots. *)
Definition handleDeleteBatch (st : State) (batchId : string) : State :=
  set_trades st
    (List.filter (fun t => negb (existsb (batch_is batchId) (t_sells t))) (trades st)).

End Ledger.

Arguments Sell : clear implicits.
Arguments Trade : clear implicits.
Arguments State : clear implicits.
Arguments TradeForm : clear implicits.
Arguments SellForm : clear implicits.

(** ** Prefilled forms

    The forms hold text; [handleSubmit] and [handleSellSubmit] read their
    numbers with [parseFloat], and the records [TradeForm] and [SellForm]
    hold the numbers so read.  A form filled from a record holds the text
    [x.toString()] of each number [x], which is read back as
    [reparse x]. *)
Section Forms.
Context {num : Type} `{Number num}.

(** [parseFloat(x.toString())] *)
Variable reparse : num -> num.

(** The form as [startEditTrade] fills it, lines 272-277. *)
Definition tradeForm_of (trade : Trade num) : TradeForm num :=
  {| tf_buy_price := reparse (t_buy_price trade);
     tf_quantity := reparse (t_quantity trade);
     tf_buy_date := t_buy_date trade;
     tf_notes := default "" (t_notes trade) |}.

(** The form as [startEditSell] fills it, lines 283-289. *)
Definition sellForm_of (sell : Sell num) : SellForm num :=
  {| sf_sell_price := reparse (s_sell_price sell);
     sf_quantity := reparse (s_quantity sell);
     sf_sell_date := s_sell_date sell;
     sf_fee := reparse (s_fee sell);
     sf_notes := default "" (s_notes sell) |}.

End Forms.

(** ** Derived views *)

(** [items.sort(cmp)]: the language fixes the result for a comparator that
    is a total preorder, it is the stable sort; insertion is the simplest
    stable sort.  [cmp x y <= 0] keeps [x] before [y]. *)
Fixpoint sort_insert {A : Type} (cmp : A -> A -> Z) (x : A) (l : list A) : list A :=
  match l with
  | [] => [x]
  | y :: l' => if (cmp x y <=? 0)%Z then x :: l else y :: sort_insert cmp x l'
  end.

Definition array_sort {A : Type} (cmp : A -> A -> Z) (l : list A) : list A :=
  foldr (sort_insert cmp) [] l.

Section Views.
Context {num : Type} `{Number num}.

(** [new Date(s).getTime()] on the dates the two [datetime-local] inputs
    produce: an integer number of milliseconds. *)
Variable getTime : string -> Z.

(** [format(new Date(s), 'MM/dd HH:mm')], the date column of the chart. *)
Variable formatDate : string -> string.

(** [parseFloat(x.toFixed(2))], the profit column of the chart. *)
Variable round2 : num -> num.

Record Stats : Type := {
  totalProfit : num;
  activeWeight : num;
}.

(** The body of the outer [forEach] of [stats], lines 296-304, on the two
    running totals. *)
Definition stats_step (acc : Stats) (t : Trade num) : Stats :=
  let soldWeight := fold_left (fun a s => num_add a (s_quantity s)) (t_sells t) num_zero in
  {| activeWeight := num_add (activeWeight acc) (num_sub (t_quantity t) soldWeight);
     totalProfit :=
       fold_left (fun tp s =>
         let profit :=
           num_sub (num_mul (num_sub (s_sell_price s) (t_buy_price t)) (s_quantity s))
                   (s_fee s) in
         num_add tp profit) (t_sells t) (totalProfit acc) |}.

(** [stats], lines 292-310. *)
Definition stats (ts : list (Trade num)) : Stats :=
  fold_left stats_step ts {| totalProfit := num_zero; activeWeight := num_zero |}.

(** [TradeItem]'s [totalProfit], lines 1022-1024. *)
Definition tradeItem_totalProfit (trade : Trade num) : num :=
  fold_left (fun acc s =>
    num_add acc
      (num_sub (num_mul (num_sub (s_sell_price s) (t_buy_price trade)) (s_quantity s))
               (s_fee s)))
    (t_sells trade) num_zero.

(** [TradeItem]'s [isFullySold], lines 1018-1020. *)
Definition tradeItem_isFullySold (trade : Trade num) : bool :=
  num_ltb (num_sub (t_quantity trade) (sum_by s_quantity (t_sells trade))) sold_tol.

(** One value of the [batches] record of [displayItems]. *)
Record Batch : Type := {
  b_id : string;
  b_trades : list (Trade num);
  b_batchDate : string;
  b_sellPrice : num;
  b_totalProfit : num;
  b_totalFee : num;
  b_totalQuantity : num;
  b_buyPrice : num;
}.

(** [batches] is an object keyed by batch id; [Object.values] lists it in
    insertion order, so it is kept as an association list in that order.
    (The ids the program makes, [batch-<ms>], are neither array indices,
    which would be listed first, nor names that an object inherits.) *)
Definition batches_has (bs : list (string * Batch)) (k : string) : bool :=
  existsb (fun kv => bool_decide (kv.1 = k)) bs.

Definition batches_alter (f : Batch -> Batch) (k : string)
    (bs : list (string * Batch)) : list (string * Batch) :=
  map (fun kv => if bool_decide (kv.1 = k) then (kv.1, f kv.2) else kv) bs.

(** [batches[bId].trades.push(trade); batches[bId].totalQuantity += trade.quantity] *)
Definition batch_push (trade : Trade num) (b : Batch) : Batch :=
  {| b_id := b_id b; b_trades := b_trades b ++ [trade]; b_batchDate := b_batchDate b;
     b_sellPrice := b_sellPrice b; b_totalProfit := b_totalProfit b;
     b_totalFee := b_totalFee b;
     b_totalQuantity := num_add (b_totalQuantity b) (t_quantity trade);
     b_buyPrice := b_buyPrice b |}.

(** The fresh entry of lines 323-332. *)
Definition batch_new (bId : string) (batchSell : Sell num) : Batch :=
  {| b_id := bId; b_trades := []; b_batchDate := s_sell_date batchSell;
     b_sellPrice := s_sell_price batchSell; b_totalProfit := num_zero;
     b_totalFee := num_zero; b_totalQuantity := num_zero; b_buyPrice := num_zero |}.

(** [trade.sells.find(s => s.batch_id)] *)
Definition find_batchSell (trade : Trade num) : option (Sell num) :=
  find (fun s => str_truthy (s_batch_id s)) (t_sells trade).

(** The body of the first loop, lines 316-339. *)
Definition group_step (acc : list (string * Batch) * list (Trade num))
    (trade : Trade num) : list (string * Batch) * list (Trade num) :=
  let '(batches, standaloneTrades) := acc in
  match find_batchSell trade with
  | Some batchSell =>
      match s_batch_id batchSell with
      | Some bId =>
          if str_truthy (Some bId) then
            let batches1 :=
              if batches_has batches bId then batches
              else batches ++ [(bId, batch_new bId batchSell)] in
            (batches_alter (batch_push trade) bId batches1, standaloneTrades)
          else (batches, standaloneTrades ++ [trade])
      | None => (batches, standaloneTrades ++ [trade])
      end
  | None => (batches, standaloneTrades ++ [trade])
  end.

Definition group_trades (ts : list (Trade num)) : list (string * Batch) * list (Trade num) :=
  fold_left group_step ts ([], []).

(** The running totals of one batch in the second loop: [totalBuyCost],
    [batch.totalProfit], [batch.totalFee]. *)
Record Totals : Type := {
  tot_buyCost : num;
  tot_profit : num;
  tot_fee : num;
}.

Definition totals_sell (bid : string) (t : Trade num) (acc : Totals) (s : Sell num) : Totals :=
  if batch_is bid s then
    {| tot_buyCost := tot_buyCost acc;
       tot_profit :=
         num_add (tot_profit acc)
           (num_sub (num_mul (num_sub (s_sell_price s) (t_buy_price t)) (s_quantity s))
                    (s_fee s));
       tot_fee := num_add (tot_fee acc) (s_fee s) |}
  else acc.

Definition totals_trade (bid : string) (acc : Totals) (t : Trade num) : Totals :=
  let acc1 :=
    {| tot_buyCost := num_add (tot_buyCost acc) (num_mul (t_buy_price t) (t_quantity t));
       tot_profit := tot_profit acc; tot_fee := tot_fee acc |} in
  fold_left (totals_sell bid t) (t_sells t) acc1.

(** The body of the second loop, lines 342-354. *)
Definition batch_totals (batch : Batch) : Batch :=
  let r := fold_left (totals_trade (b_id batch)) (b_trades batch)
             {| tot_buyCost := num_zero; tot_profit := b_totalProfit batch;
                tot_fee := b_totalFee batch |} in
  {| b_id := b_id batch; b_trades := b_trades batch; b_batchDate := b_batchDate batch;
     b_sellPrice := b_sellPrice batch; b_totalProfit := tot_profit r;
     b_totalFee := tot_fee r; b_totalQuantity := b_totalQuantity batch;
     b_buyPrice := num_div (tot_buyCost r) (b_totalQuantity batch) |}.

(** An entry of the display list; the React key is left out. *)
Inductive ItemData : Type :=
  | TradeData (t : Trade num)     (* type: 'trade' *)
  | BatchData (b : Batch).        (* type: 'batch' *)

Record Item : Type := {
  i_data : ItemData;
  i_timestamp : Z;
  i_isFullySold : bool;
}.

Definition is_batch_item (it : Item) : bool :=
  match i_data it with BatchData _ => true | TradeData _ => false end.

Definition trade_item (t : Trade num) : Item :=
  {| i_data := TradeData t;
     i_timestamp := getTime (t_buy_date t);
     i_isFullySold :=
       num_ltb (num_sub (t_quantity t)
                  (fold_left (fun acc s => num_add acc (s_quantity s)) (t_sells t) num_zero))
               sold_tol |}.

Definition batch_item (b : Batch) : Item :=
  {| i_data := BatchData b;
     i_timestamp := getTime (b_batchDate b);
     i_isFullySold := true |}.

(** The comparator of lines 373-376. *)
Definition item_cmp (a b : Item) : Z :=
  if negb (Bool.eqb (i_isFullySold a) (i_isFullySold b))
  then (if i_isFullySold a then 1 else -1)%Z
  else (i_timestamp b - i_timestamp a)%Z.

(** The batch views of the ledger, totals computed. *)
Definition batch_views (ts : list (Trade num)) : list Batch :=
  map (fun kv => batch_totals kv.2) (group_trades ts).1.

(** The lots shown on their own. *)
Definition standalone_trades (ts : list (Trade num)) : list (Trade num) :=
  (group_trades ts).2.

(** The list before the sort, lines 356-371. *)
Definition unsorted_items (ts : list (Trade num)) : list Item :=
  map trade_item (standalone_trades ts) ++ map batch_item (batch_views ts).

(** [displayItems], lines 312-377. *)
Definition displayItems (ts : list (Trade num)) : list Item :=
  array_sort item_cmp (unsorted_items ts).

(** [chartData], lines 383-396: one row per sale with its date text, its
    time and its profit; the rows sorted by time; then the two columns of
    the chart, the date text and the profit rounded to two decimals. *)
Definition chartData (ts : list (Trade num)) : list (string * num) :=
  let allSells :=
    flat_map (fun t =>
      map (fun s =>
        (formatDate (s_sell_date s), getTime (s_sell_date s),
         num_sub (num_mul (num_sub (s_sell_price s) (t_buy_price t)) (s_quantity s))
                 (s_fee s))) (t_sells t)) ts in
  map (fun s => (s.1.1, round2 s.2))
    (array_sort (fun a b => (a.1.2 - b.1.2)%Z) allSells).

(** [selectedTotalWeight], lines 398-405. *)
Definition selectedTotalWeight (st : State num) : num :=
  fold_left (fun acc t =>
      let sold := fold_left (fun sAcc s => num_add sAcc (s_quantity s)) (t_sells t) num_zero in
      num_add acc (num_sub (t_quantity t) sold))
    (List.filter (fun t => includes (selectedTradeIds st) (t_id t)) (trades st))
    num_zero.

(** *** Lots, batches and their sales, as the properties name them *)

(** The batch a lot is displayed under: the batch id of its first sale that
    has one. *)
Definition lot_batch (t : Trade num) : option string :=
  match find_batchSell t with
  | Some s => s_batch_id s
  | None => None
  end.

Definition member_of (bid : string) (t : Trade num) : bool :=
  bool_decide (lot_batch t = Some bid).

(** Every sale of the lots [ts], each with its lot, in ledger order. *)
Definition all_sales (ts : list (Trade num)) : list (Trade num * Sell num) :=
  flat_map (fun t => map (pair t) (t_sells t)) ts.

(** The sales of batch [bid] among the sales of the lots [ts]. *)
Definition batch_sales (bid : string) (ts : list (Trade num)) : list (Trade num * Sell num) :=
  flat_map (fun t => map (pair t) (List.filter (batch_is bid) (t_sells t))) ts.

(** The fees of the sales of batch [bid], in ledger order. *)
Definition created_fees (bid : string) (ts : list (Trade num)) : list num :=
  map (fun p => s_fee p.2) (batch_sales bid ts).

End Views.

Arguments Stats : clear implicits.
Arguments Batch : clear implicits.
Arguments Totals : clear implicits.
Arguments ItemData : clear implicits.
Arguments Item : clear implicits.

(** ** The cards *)

Section Cards.
Context {num : Type} `{Number num}.

(** [groupedSells] of [TradeItem], lines 1027-1041.  [groups] is an object
    keyed by batch id, kept as an association list in insertion order like
    [batches] above, with the same proviso on its keys. *)
Definition groups_has (gs : list (string * list (Sell num))) (k : string) : bool :=
  existsb (fun kv => bool_decide (kv.1 = k)) gs.

(** [groups[k].push(s)] *)
Definition groups_push (k : string) (s : Sell num)
    (gs : list (string * list (Sell num))) : list (string * list (Sell num)) :=
  map (fun kv => if bool_decide (kv.1 = k) then (kv.1, kv.2 ++ [s]) else kv) gs.

Definition groupedSells_step (acc : list (string * list (Sell num)) * list (Sell num))
    (s : Sell num) : list (string * list (Sell num)) * list (Sell num) :=
  let '(groups, individual) := acc in
  if str_truthy (s_batch_id s) then
    match s_batch_id s with
    | Some bId =>
        let groups1 := if groups_has groups bId then groups else groups ++ [(bId, [])] in
        (groups_push bId s groups1, individual)
    | None => (groups, individual ++ [s])
    end
  else (groups, individual ++ [s]).

Definition groupedSells (sells : list (Sell num))
    : list (string * list (Sell num)) * list (Sell num) :=
  fold_left groupedSells_step sells ([], []).

End Cards.

(** ** The storage effects *)

(** A call that returns or throws. *)
Inductive Exec (A : Type) : Type :=
  | Returned (a : A)
  | Thrown (e : string).
Arguments Returned {A} a.
Arguments Thrown {A} e.

Definition exec_bind {A B : Type} (m : Exec A) (k : A -> Exec B) : Exec B :=
  match m with
  | Returned a => k a
  | Thrown e => Thrown e
  end.

(** [try { body } catch (e) { handler(e) }] *)
Definition try_catch {A : Type} (body : Exec A) (handler : string -> Exec A) : Exec A :=
  match body with
  | Returned a => Returned a
  | Thrown e => handler e
  end.

Section Storage.
Context {num : Type} `{Number num}.

(** [JSON.parse], which throws on a text that is no JSON, and
    [JSON.stringify]. *)
Variable JSON_parse : string -> Exec (list (Trade num)).
Variable JSON_stringify : list (Trade num) -> string.

(** The component state together with what the effects touch outside it:
    the entry of [localStorage] under ['gold_trades_v2'] and the lines
    written with [console.error] (the message and the error caught). *)
Record World : Type := {
  w_state : State num;
  w_storage : option string;
  w_console : list (string * string);
}.

Definition setLoading (st : State num) (b : bool) : State num :=
  {| trades := trades st; sellingTradeId := sellingTradeId st;
     selectedTradeIds := selectedTradeIds st; isBatchSelling := isBatchSelling st;
     editingTrade := editingTrade st; editingSell := editingSell st; loading := b |}.

(** The load effect, lines 111-121. *)
Definition loadEffect (w : World) : Exec World :=
  let saved := w_storage w in
  exec_bind
    (match saved with
     | Some text =>
         if str_truthy saved then
           try_catch
             (exec_bind (JSON_parse text) (fun ts =>
                Returned {| w_state := set_trades (w_state w) ts;
                            w_storage := w_storage w; w_console := w_console w |}))
             (fun e =>
                Returned {| w_state := w_state w; w_storage := w_storage w;
                            w_console := w_console w ++
                                         [("Failed to parse saved trades", e)] |})
         else Returned w
     | None => Returned w
     end)
    (fun w1 =>
       Returned {| w_state := setLoading (w_state w1) false;
                   w_storage := w_storage w1; w_console := w_console w1 |}).

(** The sync effect, lines 124-128, run for the render whose state is
    [render]. *)
Definition syncEffect (render : State num) (w : World) : World :=
  if negb (loading render) then
    {| w_state := w_state w; w_storage := Some (JSON_stringify (trades render));
       w_console := w_console w |}
  else w.

(** Mounting the component: both effects run for the first render (state
    [initial_state], so the sync effect still sees [loading = true]), then
    the state changes of the load effect cause a second render, for which
    the sync effect runs again. *)
Definition mount (storage : option string) : Exec World :=
  let w0 := {| w_state := initial_state; w_storage := storage; w_console := [] |} in
  exec_bind (loadEffect w0) (fun w1 =>
    let w2 := syncEffect (w_state w0) w1 in
    Returned (syncEffect (w_state w2) w2)).

End Storage.

Arguments World : clear implicits.

(** *** A saved text of any value

    [JSON.parse] returns whatever value the text denotes, and [setTrades]
    stores it as it is.  The render that follows reads [trades.forEach]
    (the [stats] memo, line 296), which throws a [TypeError] on a value that
    is no array; nothing catches it, so that render does not commit and its
    effects do not run.  [Parsed] tells an array of lots from such a value;
    an array with elements that are no lots is not modelled. *)
Inductive Parsed {num : Type} : Type :=
  | ParsedLedger (ts : list (Trade num))   (* an array of lots *)
  | ParsedOther.                           (* null, an object, a number, a string, a boolean *)
Arguments Parsed : clear implicits.

Section StorageParsed.
Context {num : Type} `{Number num}.

Variable JSON_parse : string -> Exec (Parsed num).
Variable JSON_stringify : list (Trade num) -> string.

(** The load effect, lines 111-121, with what the next render finds in
    [trades]: an array ([true]) or not. *)
Definition loadEffectParsed (w : World num) : Exec (World num * bool) :=
  let saved := w_storage w in
  exec_bind
    (match saved with
     | Some text =>
         if str_truthy saved then
           try_catch
             (exec_bind (JSON_parse text) (fun v =>
                match v with
                | ParsedLedger ts =>
                    Returned ({| w_state := set_trades (w_state w) ts;
                                 w_storage := w_storage w; w_console := w_console w |},
                              true)
                | ParsedOther => Returned (w, false)
                end))
             (fun e =>
                Returned ({| w_state := w_state w; w_storage := w_storage w;
                             w_console := w_console w ++
                                          [("Failed to parse saved trades", e)] |},
                          true))
         else Returned (w, true)
     | None => Returned (w, true)
     end)
    (fun w1 =>
       Returned ({| w_state := setLoading (w_state w1.1) false;
                    w_storage := w_storage w1.1; w_console := w_console w1.1 |},
                 w1.2)).

(** Mounting, as [mount], with the second render: it throws when [trades]
    is no array, before the sync effect of that render. *)
Definition mountParsed (storage : option string) : Exec (World num) :=
  let w0 := {| w_state := initial_state; w_storage := storage; w_console := [] |} in
  exec_bind (loadEffectParsed w0) (fun w1 =>
    let w2 := syncEffect JSON_stringify (w_state w0) w1.1 in
    if w1.2 then Returned (syncEffect JSON_stringify (w_state w2) w2)
    else Thrown "TypeError").

End StorageParsed.

(** ** Vocabulary of the properties *)

(** [cmp x y <= 0]: the comparator lets [x] stand before [y]. *)
Definition cmp_le {A : Type} (cmp : A -> A -> Z) (x y : A) : Prop := (cmp x y <= 0)%Z.

Section Vocabulary.
Context {num : Type} `{Number num}.

(** The lots a batch submit adds a sale to: ticked, and with a remaining
    quantity that is not [<= 0]. *)
Definition gets_sale (ids : list num) (t : Trade num) : bool :=
  includes ids (t_id t) && negb (num_leb (remaining t) num_zero).

(** What the first loop has established for one entry of [batches] once
    the lots [ts] are processed. *)
Definition entry_ok (ts : list (Trade num)) (k : string) (b : Batch num) : Prop :=
  b_id b = k /\
  b_trades b = List.filter (member_of k) ts /\
  b_totalQuantity b = sum_by t_quantity (b_trades b) /\
  b_totalProfit b = num_zero /\
  b_totalFee b = num_zero.

Definition group_inv (ts : list (Trade num))
    (acc : list (string * Batch num) * list (Trade num)) : Prop :=
  acc.2 = List.filter (fun t => negb (str_truthy (lot_batch t))) ts /\
  (forall k, batches_has acc.1 k = false -> List.filter (member_of k) ts = []) /\
  (forall k b, (k, b) ∈ acc.1 -> entry_ok ts k b).

(** What a handler may change of a lot besides its sales. *)
Definition lot_data (t : Trade num) : num * num * num * string * option string :=
  (t_id t, t_buy_price t, t_quantity t, t_buy_date t, t_notes t).

(** The lots behind one entry of the display list. *)
Definition item_lots (it : Item num) : list (Trade num) :=
  match i_data it with
  | TradeData t => [t]
  | BatchData b => b_trades b
  end.

(** The lots held by the entries of [batches]. *)
Definition batches_trades (bs : list (string * Batch num)) : list (Trade num) :=
  concat (map (fun kv => b_trades kv.2) bs).

(** What the first loop of [displayItems] keeps besides [group_inv]: the
    lots processed are shared out, and no entry of [batches] is empty. *)
Definition shown_inv (ts : list (Trade num))
    (acc : list (string * Batch num) * list (Trade num)) : Prop :=
  acc.2 ++ batches_trades acc.1 ≡ₚ ts /\
  NoDup (map fst acc.1) /\
  Forall (fun kv => b_trades kv.2 <> []) acc.1.

(** The row of [chartData] for one sale, and its point on the chart. *)
Definition chart_row (getTime : string -> Z) (formatDate : string -> string)
    (p : Trade num * Sell num) : string * Z * num :=
  (formatDate (s_sell_date p.2), getTime (s_sell_date p.2), saleProfit p.1 p.2).

Definition chart_point (formatDate : string -> string) (round2 : num -> num)
    (p : Trade num * Sell num) : string * num :=
  (formatDate (s_sell_date p.2), round2 (saleProfit p.1 p.2)).

(** The quantities of the sales of batch [bid], lot by lot. *)
Definition created_quantities (bid : string) (ts : list (Trade num)) : list num :=
  map (fun p => s_quantity p.2) (batch_sales bid ts).

(** What the loop of [groupedSells] has established once the sales
    [sells] are processed. *)
Definition groups_inv (sells : list (Sell num))
    (acc : list (string * list (Sell num)) * list (Sell num)) : Prop :=
  acc.2 = List.filter (fun s => negb (str_truthy (s_batch_id s))) sells /\
  NoDup (map fst acc.1) /\
  (forall k g, (k, g) ∈ acc.1 ->
     k <> "" /\ g <> [] /\ g = List.filter (batch_is k) sells) /\
  (forall k, groups_has acc.1 k = false -> k <> "" -> List.filter (batch_is k) sells = []).

End Vocabulary.

(** ** Sample ledgers

    Small ledgers built by running the handlers on binary64 numbers.  Their
    quantities are small integers, so every sum on them is exact, but for
    [st_chart] and [st_near_bound], which are there to show the rounding. *)
Module Sample.

Definition getTime (s : string) : Z :=
  if bool_decide (s = "2024-01-01T10:00") then 1704103200000
  else if bool_decide (s = "2024-01-02T10:00") then 1704189600000
  else if bool_decide (s = "2024-01-03T10:00") then 1704276000000
  else if bool_decide (s = "2024-02-01T10:00") then 1706781600000
  else if bool_decide (s = "2024-02-02T10:00") then 1706868000000
  else 0.

(** [Math.random()] while lot [i] is mapped: 1/8, 2/8, ... *)
Definition random (i : nat) : float :=
  PrimFloat.div (float_of_Z (Z.of_nat (S i))) 8%float.

(** A parser that knows one text and throws on every other. *)
Definition JSON_parse (text : string) : Exec (list (Trade float)) :=
  if bool_decide (text = "[]") then Returned []
  else Thrown "SyntaxError: Unexpected token".

Definition JSON_stringify (ts : list (Trade float)) : string :=
  match ts with
  | [] => "[]"
  | _ => "[...]"
  end.

Definition buy (price quantity : float) (date : string) : TradeForm float :=
  {| tf_buy_price := price; tf_quantity := quantity; tf_buy_date := date;
     tf_notes := "" |}.

Definition sell (price quantity fee : float) (date : string) : SellForm float :=
  {| sf_sell_price := price; sf_quantity := quantity; sf_sell_date := date;
     sf_fee := fee; sf_notes := "" |}.

(** Three buys, at clock readings 1, 2 and 3, which become their ids. *)
Definition st_lots : State float :=
  let s := setLoading initial_state false in
  let s := handleSubmit s (buy 500 3 "2024-01-01T10:00") 1 in
  let s := handleSubmit s (buy 520 7 "2024-01-02T10:00") 2 in
  handleSubmit s (buy 510 4 "2024-01-03T10:00") 3.

Definition batch_now : Z := 1706781600000.
Definition batch_name : string := "batch-1706781600000".

(** Lots 1 and 2 ticked, then sold together at 600 with a total fee of 10. *)
Definition st_selected : State float :=
  toggleSelection (toggleSelection st_lots 1%float) 2%float.

Definition st_batch : State float :=
  (handleSellSubmit (startBatchSell st_selected) (sell 600 10 10 "2024-02-01T10:00")
     batch_now random).1.

(** After the batch sale, lot 2 is edited from 7 to 9 grams. *)
Definition st_batch_edited : State float :=
  match trades st_batch !! 1%nat with
  | Some lot2 =>
      handleSubmit (startEditTrade st_batch lot2) (buy 520 9 "2024-01-02T10:00") 5
  | None => st_batch
  end.

(** Lots 1 and 2 ticked, lot 1 then sold in full on its own, and only then
    the batch sale with a total fee of 10. *)
Definition st_stale_selection : State float :=
  (handleSellSubmit (startSell st_selected 1%float) (sell 590 3 0 "2024-02-01T10:00")
     1706781500000 random).1.

Definition st_stale_batch : State float :=
  (handleSellSubmit (startBatchSell st_stale_selection) (sell 600 7 10 "2024-02-01T10:00")
     batch_now random).1.

(** One lot of 10 grams with a sale of 6. *)
Definition st_ten : State float :=
  handleSubmit (setLoading initial_state false) (buy 500 10 "2024-01-01T10:00") 4.

Definition st_ten_sold6 : State float :=
  (handleSellSubmit (startSell st_ten 4%float) (sell 550 6 0 "2024-02-01T10:00") 7 random).1.

(** The sell form opened on the sale of [st_ten_sold6], to edit it. *)
Definition st_ten_edit_sale : State float :=
  match trades st_ten_sold6 !! 0%nat with
  | Some lot =>
      match t_sells lot !! 0%nat with
      | Some s => startEditSell st_ten_sold6 4%float s
      | None => st_ten_sold6
      end
  | None => st_ten_sold6
  end.

(** The lot of [st_ten_sold6] edited down to 5 grams. *)
Definition st_ten_edited : State float :=
  match trades st_ten_sold6 !! 0%nat with
  | Some lot =>
      handleSubmit (startEditTrade st_ten_sold6 lot) (buy 500 5 "2024-01-01T10:00") 8
  | None => st_ten_sold6
  end.

(** On top of [st_batch]: a buy of 2 grams dated after the batch sale, and
    a buy of 1 gram dated before everything, sold in full. *)
Definition st_display : State float :=
  let s := handleSubmit st_batch (buy 530 2 "2024-02-02T10:00") 6 in
  let s := handleSubmit s (buy 505 1 "2024-01-01T10:00") 9 in
  (handleSellSubmit (startSell s 9%float) (sell 540 1 0 "2024-02-02T10:00") 10 random).1.

(** The lot of [st_ten] sold in full at 550 with a fee of 20. *)
Definition st_ten_sold_out : State float :=
  (handleSellSubmit (startSell st_ten 4%float) (sell 550 10 20 "2024-02-01T10:00") 7 random).1.

(** What the statements below read off a lot and off a display entry. *)
Definition lot_summary (t : Trade float)
    : float * float * list (float * float * option string) :=
  (t_id t, t_quantity t,
   map (fun s => (s_quantity s, s_fee s, s_batch_id s)) (t_sells t)).

Definition item_summary (it : Item float) : bool * Z * bool :=
  (is_batch_item it, i_timestamp it, i_isFullySold it).

(** A parser that also knows the text [JSON_stringify] gives for a ledger
    with lots, and reads it as the ledger of [st_ten]. *)
Definition JSON_parse_ten (text : string) : Exec (list (Trade float)) :=
  if bool_decide (text = "[...]") then Returned (trades st_ten) else JSON_parse text.

(** A parser that knows [null], which is no array, and the empty ledger,
    and throws on every other text. *)
Definition JSON_parse_any (text : string) : Exec (Parsed float) :=
  if bool_decide (text = "null") then Returned ParsedOther
  else if bool_decide (text = "[]") then Returned (ParsedLedger [])
  else Thrown "SyntaxError: Unexpected token".

(** [format(new Date(s), 'MM/dd HH:mm')] on the text of a [datetime-local]
    input, [yyyy-MM-ddTHH:mm]. *)
Definition formatDate (s : string) : string :=
  String.substring 5 2 s +:+ "/" +:+ String.substring 8 2 s +:+ " " +:+
  String.substring 11 5 s.

(** A lot bought at 500 with one sale of 0.975 grams at 551.85. *)
Definition st_chart : State float :=
  (handleSellSubmit (startSell st_ten 4%float) (sell 551.85 0.975 0 "2024-02-01T10:00")
     7 random).1.

(** A lot of 0.021 grams with sales of 0.002 and 0.019010000000000003 grams,
    both accepted, and the edit form opened on the first of them. *)
Definition st_near_bound : State float :=
  let s := handleSubmit (setLoading initial_state false)
             (buy 500 0.021 "2024-01-01T10:00") 4 in
  let s := (handleSellSubmit (startSell s 4%float)
              (sell 550 0.002 0 "2024-02-01T10:00") 7 random).1 in
  (handleSellSubmit (startSell s 4%float)
     (sell 550 0.019010000000000003 0 "2024-02-02T10:00") 8 random).1.

End Sample.

(** * Properties *)

(** ** The sort *)

Section Sorting.
Context {A : Type} (cmp : A -> A -> Z).

Lemma sort_insert_perm (x : A) (l : list A) : sort_insert cmp x l ≡ₚ x :: l.
Proof.
  induction l as [|y l IH]; simpl; [done|].
  destruct (cmp x y <=? 0)%Z; [done|].
  rewrite IH. apply Permutation_swap.
Qed.

Lemma array_sort_perm (l : list A) : array_sort cmp l ≡ₚ l.
Proof.
  induction l as [|x l IH]; simpl; [done|].
  unfold array_sort in *. simpl. rewrite sort_insert_perm. by rewrite IH.
Qed.

Lemma array_sort_elem (x : A) (l : list A) : x ∈ array_sort cmp l <-> x ∈ l.
Proof. by rewrite array_sort_perm. Qed.

Hypothesis cmp_total : forall x y, cmp_le cmp x y \/ cmp_le cmp y x.
Hypothesis cmp_trans : forall x y z, cmp_le cmp x y -> cmp_le cmp y z -> cmp_le cmp x z.

Lemma sort_insert_sorted (x : A) (l : list A) :
  StronglySorted (cmp_le cmp) l -> StronglySorted (cmp_le cmp) (sort_insert cmp x l).
Proof.
  induction l as [|y l IH]; intros Hs; simpl.
  - repeat constructor.
  - inversion Hs as [|? ? Hl Hy]; subst.
    destruct (cmp x y <=? 0)%Z eqn:E.
    + apply Z.leb_le in E. constructor; [done|].
      constructor; [done|].
      eapply Forall_impl; [exact Hy|]. intros z Hz. by eapply cmp_trans.
    + apply Z.leb_gt in E. constructor; [by apply IH|].
      rewrite sort_insert_perm. constructor; [|done].
      destruct (cmp_total x y) as [Hxy|Hyx]; [unfold cmp_le in Hxy; lia|done].
Qed.

Lemma array_sort_sorted (l : list A) : StronglySorted (cmp_le cmp) (array_sort cmp l).
Proof.
  induction l as [|x l IH]; [constructor|].
  unfold array_sort in *. simpl. by apply sort_insert_sorted.
Qed.

End Sorting.

Lemma StronglySorted_split {A : Type} (R : A -> A -> Prop) (l1 l2 l3 : list A) (x y : A) :
  StronglySorted R (l1 ++ x :: l2 ++ y :: l3) -> R x y.
Proof.
  intros Hs. apply StronglySorted_app_1_r in Hs.
  inversion Hs as [|? ? _ Hx]; subst.
  rewrite Forall_forall in Hx. apply Hx.
  apply elem_of_app. right. apply list_elem_of_here.
Qed.

(** ** The display list *)

Section Display.
Context {num : Type} `{Number num}.
Variable getTime : string -> Z.

Lemma item_cmp_total (a b : Item num) :
  cmp_le item_cmp a b \/ cmp_le item_cmp b a.
Proof.
  unfold cmp_le, item_cmp.
  destruct (i_isFullySold a), (i_isFullySold b); simpl; lia.
Qed.

Lemma item_cmp_trans (a b c : Item num) :
  cmp_le item_cmp a b -> cmp_le item_cmp b c -> cmp_le item_cmp a c.
Proof.
  unfold cmp_le, item_cmp.
  destruct (i_isFullySold a), (i_isFullySold b), (i_isFullySold c); simpl; lia.
Qed.

(** What [item_cmp a b <= 0] says: [a] may stand before [b]. *)
Lemma item_cmp_le_inv (a b : Item num) :
  cmp_le item_cmp a b ->
  (i_isFullySold a = true -> i_isFullySold b = true) /\
  (i_isFullySold a = i_isFullySold b -> (i_timestamp b <= i_timestamp a)%Z).
Proof.
  unfold cmp_le, item_cmp.
  destruct (i_isFullySold a), (i_isFullySold b); simpl; intros Hc; split;
    intros; try done; lia.
Qed.

Lemma displayItems_sorted (ts : list (Trade num)) :
  StronglySorted (cmp_le item_cmp) (displayItems getTime ts).
Proof.
  apply array_sort_sorted; [apply item_cmp_total|apply item_cmp_trans].
Qed.

Lemma displayItems_elem (ts : list (Trade num)) (it : Item num) :
  it ∈ displayItems getTime ts <->
  (exists t, t ∈ standalone_trades ts /\ it = trade_item getTime t) \/
  (exists b, b ∈ batch_views ts /\ it = batch_item getTime b).
Proof.
  unfold displayItems. rewrite array_sort_elem. unfold unsorted_items.
  rewrite elem_of_app, !list_elem_of_fmap.
  split; (intros [(t & ? & ?)|(b & ? & ?)]; [left; exists t|right; exists b]; done).
Qed.

(** C8: the display list holds the standalone lots and the batch views; a
    standalone lot counts as fully sold when its remaining quantity is below
    0.0001 and carries the time of its buy date, a batch view carries the
    time of its sale date; and of any two entries the earlier one is open
    whenever the later one is (open entries precede closed ones), and where
    both are open or both closed the earlier one has the later or the same
    time (descending time in each part). *)
Theorem C8_display_order (ts : list (Trade num)) :
  displayItems getTime ts ≡ₚ
    map (trade_item getTime) (standalone_trades ts) ++
    map (batch_item getTime) (batch_views ts) /\
  (forall t, i_isFullySold (trade_item getTime t) = num_ltb (remaining t) sold_tol /\
             i_timestamp (trade_item getTime t) = getTime (t_buy_date t)) /\
  (forall b : Batch num,
     i_timestamp (batch_item getTime b) = getTime (b_batchDate b)) /\
  (forall l1 x l2 y l3,
     displayItems getTime ts = l1 ++ x :: l2 ++ y :: l3 ->
     (i_isFullySold x = true -> i_isFullySold y = true) /\
     (i_isFullySold x = i_isFullySold y -> (i_timestamp y <= i_timestamp x)%Z)).
Proof.
  split; [apply array_sort_perm|].
  split; [intros t; split; reflexivity|].
  split; [reflexivity|].
  intros l1 x l2 y l3 E.
  apply item_cmp_le_inv.
  apply (StronglySorted_split _ l1 l2 l3).
  rewrite <- E. apply displayItems_sorted.
Qed.

(** C10: every batch view of the display list is classified as fully sold,
    whatever its member lots still hold. *)
Theorem C10_batch_views_closed (ts : list (Trade num)) (it : Item num) :
  it ∈ displayItems getTime ts ->
  is_batch_item it = true ->
  i_isFullySold it = true.
Proof.
  rewrite displayItems_elem.
  intros [(t & _ & ->)|(b & _ & ->)] Hb; [discriminate Hb|reflexivity].
Qed.

End Display.

(** ** The handlers *)

Section Handlers.
Context {num : Type} `{Number num}.

Lemma filter_sublist {A : Type} (f : A -> bool) (l : list A) :
  sublist (List.filter f l) l.
Proof.
  induction l as [|x l IH]; simpl; [constructor|].
  destruct (f x); by constructor.
Qed.

Lemma existsb_batch_is (batchId : string) (ss : list (Sell num)) :
  existsb (batch_is batchId) ss = false <->
  forall s, s ∈ ss -> s_batch_id s <> Some batchId.
Proof.
  induction ss as [|s ss IH]; simpl.
  - split; [intros _ s Hs; by apply elem_of_nil in Hs|done].
  - rewrite orb_false_iff, IH. unfold batch_is. rewrite bool_decide_eq_false.
    split.
    + intros [Hs Hss] s' Hin. apply elem_of_cons in Hin as [->|Hin]; auto.
    + intros Hall. split; [apply Hall; left|intros s' Hin; apply Hall; by right].
Qed.

(** C1, as the code has it: deleting a batch removes every lot that has a
    sale of that batch, with all the sales of the lot, and keeps every other
    lot as it is and in its place; nothing else of the state changes. *)
Theorem C1_delete_batch_removes_member_lots (st : State num) (batchId : string) :
  (forall t, t ∈ trades (handleDeleteBatch st batchId) <->
             t ∈ trades st /\ forall s, s ∈ t_sells t -> s_batch_id s <> Some batchId) /\
  sublist (trades (handleDeleteBatch st batchId)) (trades st) /\
  handleDeleteBatch st batchId = set_trades st (trades (handleDeleteBatch st batchId)).
Proof.
  split; [|split; [apply filter_sublist|reflexivity]].
  intros t. simpl. rewrite list_elem_of_In, filter_In, <- list_elem_of_In.
  by rewrite negb_true_iff, existsb_batch_is.
Qed.

(** C3: with the sell form open on a lot of the ledger (a new sale, or the
    edit of one), the submit is rejected with the overdraft alert exactly
    when the quantity entered is greater than the lot's quantity, minus the
    quantities of its sales other than the one being edited, plus 0.00001;
    a rejected submit leaves the state as it was. *)
Theorem C3_overdraft_iff (st : State num) (form : SellForm num) (now : Z)
    (random : nat -> num) (tradeId : num) (trade : Trade num) :
  isBatchSelling st = false ->
  target_tradeId st = Some tradeId ->
  find (fun t => num_eqb (t_id t) tradeId) (trades st) = Some trade ->
  let otherSold := sum_by s_quantity (List.filter (not_edited st) (t_sells trade)) in
  ((handleSellSubmit st form now random).2 = Overdraft <->
   num_gtb (sf_quantity form)
     (num_add (num_sub (t_quantity trade) otherSold) overdraft_tol) = true) /\
  ((handleSellSubmit st form now random).2 = Overdraft ->
   (handleSellSubmit st form now random).1 = st).
Proof.
  intros Hb Ht Hf otherSold. unfold handleSellSubmit.
  rewrite Hb, Ht, Hf. fold otherSold.
  destruct (num_gtb _ _) eqn:E.
  - split; [split|]; reflexivity.
  - destruct (editingSell st) as [[es tid]|]; simpl; split;
      try split; intros; discriminate.
Qed.

(** A rejected submit never changes the state, in either mode. *)
Lemma overdraft_unchanged (st : State num) (form : SellForm num) (now : Z)
    (random : nat -> num) :
  (handleSellSubmit st form now random).2 = Overdraft ->
  (handleSellSubmit st form now random).1 = st.
Proof.
  unfold handleSellSubmit.
  destruct (isBatchSelling st); [discriminate|].
  destruct (target_tradeId st) as [tid|]; [|discriminate].
  destruct (find _ _) as [trade|]; [|discriminate].
  destruct (num_gtb _ _); [reflexivity|].
  destruct (editingSell st) as [[es ?]|]; discriminate.
Qed.

(** C4: a batch submit always goes through and keeps the number and order
    of the lots.  A selected lot whose remaining quantity is not [<= 0]
    gets one new sale, in front of its others: the whole remaining quantity,
    at the price, date and notes of the form, with the per-lot fee and the
    batch id made from the clock, the same for every lot.  A selected lot
    whose remaining quantity is [<= 0] and a lot that is not selected stay
    as they are. *)
Theorem C4_batch_sale (st : State num) (form : SellForm num) (now : Z)
    (random : nat -> num) (i : nat) (t : Trade num) :
  isBatchSelling st = true ->
  trades st !! i = Some t ->
  let st' := (handleSellSubmit st form now random).1 in
  let feePerLot :=
    num_div (sf_fee form) (num_of_Z (Z.of_nat (length (selectedTradeIds st)))) in
  let created :=
    {| s_id := num_add (num_of_Z now) (random i); s_trade_id := t_id t;
       s_sell_price := sf_sell_price form; s_quantity := remaining t;
       s_sell_date := sf_sell_date form; s_fee := feePerLot;
       s_notes := or_null (sf_notes form);
       s_batch_id := Some ("batch-" +:+ pretty now) |} in
  (handleSellSubmit st form now random).2 = Applied /\
  length (trades st') = length (trades st) /\
  (includes (selectedTradeIds st) (t_id t) = true ->
   num_leb (remaining t) num_zero = false ->
   trades st' !! i = Some (with_sells t (created :: t_sells t))) /\
  (includes (selectedTradeIds st) (t_id t) = true ->
   num_leb (remaining t) num_zero = true ->
   trades st' !! i = Some t) /\
  (includes (selectedTradeIds st) (t_id t) = false ->
   trades st' !! i = Some t).
Proof.
  intros Hb Hi st' feePerLot created.
  subst st'. unfold handleSellSubmit. rewrite Hb. simpl.
  unfold batchSellTrades.
  split; [reflexivity|]. split; [apply length_imap|].
  rewrite list_lookup_imap, Hi. simpl.
  fold (soldWeight t). fold (remaining t).
  repeat split; intros Hsel; rewrite Hsel; try done.
  - intros Hr. by rewrite Hr.
  - intros Hr. by rewrite Hr.
Qed.

End Handlers.

(** ** Loading the saved ledger *)

Section Loading.
Context {num : Type} `{Number num}.
Variable JSON_parse : string -> Exec (list (Trade num)).
Variable JSON_stringify : list (Trade num) -> string.

(** C9: when the saved text does not parse, mounting the component still
    returns: the ledger is the empty one it started with, loading is over,
    the failure is on the console, and the sync effect of the next render
    overwrites the saved text with the empty ledger. *)
Theorem C9_unparseable_payload (text e : string) :
  text <> "" ->
  JSON_parse text = Thrown e ->
  mount JSON_parse JSON_stringify (Some text) =
    Returned {| w_state := setLoading initial_state false;
                w_storage := Some (JSON_stringify []);
                w_console := [("Failed to parse saved trades", e)] |}.
Proof.
  intros Hne Hp. unfold mount, loadEffect. simpl.
  rewrite bool_decide_eq_false_2 by done. simpl.
  rewrite Hp. reflexivity.
Qed.

End Loading.

(** ** Totals *)

Section Totals.
Context {num : Type} `{Number num}.

Lemma fold_left_fmap {A B C : Type} (f : C -> B -> C) (g : A -> B) (l : list A) (c : C) :
  fold_left f (map g l) c = fold_left (fun a x => f a (g x)) l c.
Proof. revert c. induction l as [|x l IH]; intros c; simpl; [done|apply IH]. Qed.

Lemma sum_by_snoc {A : Type} (f : A -> num) (l : list A) (x : A) :
  sum_by f (l ++ [x]) = num_add (sum_by f l) (f x).
Proof. unfold sum_by. by rewrite fold_left_app. Qed.

(** *** [stats] *)

Lemma stats_totalProfit_acc (ts : list (Trade num)) (acc : Stats num) :
  totalProfit (fold_left stats_step ts acc)
  = fold_left (fun a p => num_add a (saleProfit p.1 p.2)) (all_sales ts) (totalProfit acc).
Proof.
  revert acc. induction ts as [|t ts IH]; intros acc; simpl; [done|].
  rewrite IH. simpl. rewrite fold_left_app. f_equal.
  by rewrite fold_left_fmap.
Qed.

Lemma stats_activeWeight_acc (ts : list (Trade num)) (acc : Stats num) :
  activeWeight (fold_left stats_step ts acc)
  = fold_left (fun a t => num_add a (remaining t)) ts (activeWeight acc).
Proof.
  revert acc. induction ts as [|t ts IH]; intros acc; simpl; [done|].
  by rewrite IH.
Qed.

(** *** The second loop of [displayItems] *)

Lemma totals_sell_fold (bid : string) (t : Trade num) (ss : list (Sell num)) (acc : Totals num) :
  fold_left (totals_sell bid t) ss acc =
  {| tot_buyCost := tot_buyCost acc;
     tot_profit := fold_left (fun a s => num_add a (saleProfit t s))
                     (List.filter (batch_is bid) ss) (tot_profit acc);
     tot_fee := fold_left (fun a s => num_add a (s_fee s))
                  (List.filter (batch_is bid) ss) (tot_fee acc) |}.
Proof.
  revert acc. induction ss as [|s ss IH]; intros acc; simpl; [by destruct acc|].
  rewrite IH. unfold totals_sell. destruct (batch_is bid s); reflexivity.
Qed.

Lemma totals_trade_fold (bid : string) (ts : list (Trade num)) (acc : Totals num) :
  fold_left (totals_trade bid) ts acc =
  {| tot_buyCost := fold_left (fun a t => num_add a (num_mul (t_buy_price t) (t_quantity t)))
                      ts (tot_buyCost acc);
     tot_profit := fold_left (fun a p => num_add a (saleProfit p.1 p.2))
                     (batch_sales bid ts) (tot_profit acc);
     tot_fee := fold_left (fun a p => num_add a (s_fee p.2))
                  (batch_sales bid ts) (tot_fee acc) |}.
Proof.
  revert acc. induction ts as [|t ts IH]; intros acc; simpl; [by destruct acc|].
  rewrite IH. unfold totals_trade. rewrite totals_sell_fold. simpl.
  rewrite !fold_left_app, !fold_left_fmap. reflexivity.
Qed.

End Totals.

(** ** Grouping lots into batches *)

Section Grouping.
Context {num : Type} `{Number num}.

Lemma lot_batch_truthy (t : Trade num) (bid : string) :
  lot_batch t = Some bid -> str_truthy (Some bid) = true.
Proof.
  unfold lot_batch, find_batchSell.
  destruct (find _ _) as [s|] eqn:E; [|discriminate].
  apply find_some in E as [_ E]. by intros <-.
Qed.

Lemma group_step_standalone (t : Trade num) bs sa :
  str_truthy (lot_batch t) = false -> group_step (bs, sa) t = (bs, sa ++ [t]).
Proof.
  unfold group_step, lot_batch.
  destruct (find_batchSell t) as [s|]; [|done].
  destruct (s_batch_id s) as [bid|]; [|done].
  by intros ->.
Qed.

Lemma group_step_batched (t : Trade num) (bid : string) bs sa :
  lot_batch t = Some bid ->
  exists s,
    group_step (bs, sa) t =
      (batches_alter (batch_push t) bid
         (if batches_has bs bid then bs else bs ++ [(bid, batch_new bid s)]), sa).
Proof.
  intros Hl. pose proof (lot_batch_truthy _ _ Hl) as Ht.
  unfold group_step. unfold lot_batch in Hl.
  destruct (find_batchSell t) as [s|]; [|discriminate].
  exists s. rewrite Hl, Ht. reflexivity.
Qed.

Lemma batches_alter_elem (f : Batch num -> Batch num) (k0 : string)
    (bs : list (string * Batch num)) (k : string) (b : Batch num) :
  (k, b) ∈ batches_alter f k0 bs ->
  (k = k0 /\ exists b0, (k0, b0) ∈ bs /\ b = f b0) \/ (k <> k0 /\ (k, b) ∈ bs).
Proof.
  unfold batches_alter. rewrite list_elem_of_fmap. intros ([k1 b1] & E & Hin).
  simpl in E. destruct (bool_decide (k1 = k0)) eqn:D.
  - apply bool_decide_eq_true in D. subst k1. injection E as -> ->.
    left. split; [done|]. by exists b1.
  - apply bool_decide_eq_false in D. injection E as -> ->. by right.
Qed.

Lemma batches_alter_has (f : Batch num -> Batch num) (k0 : string)
    (bs : list (string * Batch num)) (k : string) :
  batches_has (batches_alter f k0 bs) k = batches_has bs k.
Proof.
  unfold batches_has, batches_alter. induction bs as [|[k1 b1] bs IH]; simpl; [done|].
  rewrite IH. f_equal. by destruct (bool_decide (k1 = k0)).
Qed.

Lemma member_of_batched (t : Trade num) (bid k : string) :
  lot_batch t = Some bid -> member_of k t = bool_decide (bid = k).
Proof.
  intros Hl. unfold member_of. rewrite Hl.
  apply bool_decide_ext. split; congruence.
Qed.

Lemma group_step_inv (ts : list (Trade num)) acc (t : Trade num) :
  group_inv ts acc -> group_inv (ts ++ [t]) (group_step acc t).
Proof.
  destruct acc as [bs sa]. intros (Hsa & Hkeys & Hent). simpl in Hsa, Hkeys, Hent.
  destruct (lot_batch t) as [bid|] eqn:Hl.
  - pose proof (lot_batch_truthy _ _ Hl) as Htr.
    destruct (group_step_batched t bid bs sa Hl) as [s ->].
    assert (Hmem : forall k, member_of k t = bool_decide (bid = k))
      by (intros k; by apply member_of_batched).
    split; [|split]; simpl.
    + rewrite List.filter_app. simpl. rewrite Hl, Htr. simpl. by rewrite app_nil_r.
    + intros k. rewrite batches_alter_has. intros Hk.
      assert (batches_has bs k = false /\ bid <> k) as [Hk' Hne].
      { destruct (batches_has bs bid) eqn:Hb; [split; [done|]; congruence|].
        unfold batches_has in *. rewrite existsb_app in Hk. simpl in Hk.
        apply orb_false_iff in Hk as [Hk1 Hk2]. split; [done|].
        rewrite orb_false_r in Hk2. by apply bool_decide_eq_false in Hk2. }
      rewrite List.filter_app, (Hkeys k Hk'). simpl. rewrite Hmem.
      by rewrite bool_decide_eq_false_2.
    + intros k b Hin. apply batches_alter_elem in Hin as [[-> (b0 & Hin & ->)]|[Hne Hin]].
      * assert (entry_ok ts bid b0) as (Hid & Htrs & Hq & Hp & Hf).
        { destruct (batches_has bs bid) eqn:Hb; [by apply Hent|].
          apply elem_of_app in Hin as [Hin|Hin]; [by apply Hent|].
          apply list_elem_of_singleton in Hin. injection Hin as ->.
          repeat split; simpl; try done. symmetry. by apply Hkeys. }
        repeat split; simpl; try done.
        -- rewrite List.filter_app, Htrs. simpl. rewrite Hmem.
           by rewrite bool_decide_eq_true_2.
        -- by rewrite sum_by_snoc, Hq.
      * assert ((k, b) ∈ bs) as Hin'.
        { destruct (batches_has bs bid); [done|].
          apply elem_of_app in Hin as [Hin|Hin]; [done|].
          apply list_elem_of_singleton in Hin. congruence. }
        destruct (Hent k b Hin') as (Hid & Htrs & Hq & Hp & Hf).
        repeat split; try done.
        rewrite List.filter_app, Htrs. simpl. rewrite Hmem.
        rewrite bool_decide_eq_false_2 by congruence. by rewrite app_nil_r.
  - rewrite group_step_standalone by by rewrite Hl.
    assert (Hmem : forall k, member_of k t = false).
    { intros k. unfold member_of. rewrite Hl. by apply bool_decide_eq_false_2. }
    split; [|split]; simpl.
    + rewrite List.filter_app. simpl. rewrite Hl. simpl. by rewrite Hsa.
    + intros k Hk. rewrite List.filter_app, (Hkeys k Hk). simpl. by rewrite Hmem.
    + intros k b Hin. destruct (Hent k b Hin) as (Hid & Htrs & Hq & Hp & Hf).
      repeat split; try done.
      rewrite List.filter_app, Htrs. simpl. rewrite Hmem. by rewrite app_nil_r.
Qed.

Lemma group_trades_inv (ts : list (Trade num)) : group_inv ts (group_trades ts).
Proof.
  unfold group_trades. induction ts as [|t ts IH] using rev_ind.
  - split; [done|]. split; [done|]. intros k b Hin. by apply elem_of_nil in Hin.
  - rewrite fold_left_app. simpl. by apply group_step_inv.
Qed.

(** A batch view is a grouped entry with its totals filled in. *)
Lemma batch_views_elem (ts : list (Trade num)) (b : Batch num) :
  b ∈ batch_views ts ->
  exists b0, entry_ok ts (b_id b0) b0 /\ b = batch_totals b0.
Proof.
  unfold batch_views. rewrite list_elem_of_fmap. intros ([k b0] & -> & Hin).
  simpl. exists b0. split; [|done].
  destruct (group_trades_inv ts) as (_ & _ & Hent).
  pose proof (Hent k b0 Hin) as Hok.
  destruct Hok as (Hid & ?). rewrite Hid. by apply Hent.
Qed.

(** The total profit of a batch view runs over the sales of its batch. *)
Lemma batch_view_profit (ts : list (Trade num)) (b : Batch num) :
  b ∈ batch_views ts ->
  b_totalProfit b = sum_by (fun p => saleProfit p.1 p.2) (batch_sales (b_id b) (b_trades b)).
Proof.
  intros Hin. apply batch_views_elem in Hin as (b0 & (_ & _ & _ & Hp & _) & ->).
  unfold batch_totals. rewrite totals_trade_fold. simpl. by rewrite Hp.
Qed.

End Grouping.

(** ** Batch views and portfolio statistics *)

Section Aggregates.
Context {num : Type} `{Number num}.

(** C6: a batch view gathers the lots displayed under its batch id; its
    total quantity is the sum of the full quantities of these lots, its buy
    price is the sum of unit cost times quantity over them divided by that
    total quantity, and its total profit and total fee run over the sales of
    these lots that carry the batch id, and over no other sale. *)
Theorem C6_batch_view_totals (ts : list (Trade num)) (b : Batch num) :
  b ∈ batch_views ts ->
  b_trades b = List.filter (member_of (b_id b)) ts /\
  b_totalQuantity b = sum_by t_quantity (b_trades b) /\
  b_buyPrice b =
    num_div (sum_by (fun t => num_mul (t_buy_price t) (t_quantity t)) (b_trades b))
            (sum_by t_quantity (b_trades b)) /\
  b_totalProfit b = sum_by (fun p => saleProfit p.1 p.2) (batch_sales (b_id b) (b_trades b)) /\
  b_totalFee b = sum_by (fun p => s_fee p.2) (batch_sales (b_id b) (b_trades b)).
Proof.
  intros Hin. apply batch_views_elem in Hin as (b0 & (Hid & Htrs & Hq & Hp & Hf) & ->).
  unfold batch_totals. rewrite totals_trade_fold. simpl.
  rewrite Hp, Hf, <- Hq. repeat split; done.
Qed.

Lemma chartData_rows (getTime : string -> Z) (formatDate : string -> string)
    (round2 : num -> num) (ts : list (Trade num)) :
  chartData getTime formatDate round2 ts =
  map (fun r => (r.1.1, round2 r.2))
    (array_sort (fun a b : string * Z * num => (a.1.2 - b.1.2)%Z)
       (map (chart_row getTime formatDate) (all_sales ts))).
Proof.
  unfold chartData. do 2 f_equal. unfold all_sales.
  induction ts as [|t ts IH]; simpl; [done|].
  rewrite map_app, IH. f_equal. by rewrite map_map.
Qed.

(** C7: the total profit of [stats] is the sum of
    [(sell_price - buy_price) * quantity - fee] over every sale of every
    lot, and its active weight is the sum of the remaining quantities of the
    lots.  The profit of a lot's card and the total profit of a batch view
    are sums of the same expression, and the profits of the chart are its
    values, one per sale, each rounded to two decimals. *)
Theorem C7_portfolio_stats (ts : list (Trade num)) :
  totalProfit (stats ts) = sum_by (fun p => saleProfit p.1 p.2) (all_sales ts) /\
  activeWeight (stats ts) = sum_by remaining ts /\
  (forall t : Trade num, tradeItem_totalProfit t = sum_by (saleProfit t) (t_sells t)) /\
  (forall b : Batch num, b ∈ batch_views ts ->
     b_totalProfit b =
       sum_by (fun p => saleProfit p.1 p.2) (batch_sales (b_id b) (b_trades b))) /\
  (forall (getTime : string -> Z) (formatDate : string -> string) (round2 : num -> num),
     map snd (chartData getTime formatDate round2 ts) ≡ₚ
     map (fun p => round2 (saleProfit p.1 p.2)) (all_sales ts)).
Proof.
  split; [apply stats_totalProfit_acc|].
  split; [apply stats_activeWeight_acc|].
  split; [reflexivity|].
  split; [apply batch_view_profit|].
  intros getTime formatDate round2. rewrite chartData_rows, map_map. simpl.
  rewrite array_sort_perm. by rewrite map_map.
Qed.

End Aggregates.

(** ** The fees of a batch *)

Section Fees.
Context {num : Type} `{Number num}.

Lemma filter_batch_is_none (bid : string) (ss : list (Sell num)) :
  (forall s, s ∈ ss -> s_batch_id s <> Some bid) ->
  List.filter (batch_is bid) ss = [].
Proof.
  induction ss as [|s ss IH]; intros Hno; simpl; [done|].
  unfold batch_is at 1. rewrite bool_decide_eq_false_2 by (apply Hno; left).
  apply IH. intros s' Hs'. apply Hno. by right.
Qed.

Lemma batchSellTrades_cons (ids : list num) (price : num) (date : string) (fee : num)
    (notes : option string) (bid : string) (now : Z) (random : nat -> num)
    (t : Trade num) (prev : list (Trade num)) :
  batchSellTrades ids price date fee notes bid now random (t :: prev) =
  (if gets_sale ids t then
     with_sells t
       ({| s_id := num_add (num_of_Z now) (random 0%nat); s_trade_id := t_id t;
           s_sell_price := price; s_quantity := remaining t; s_sell_date := date;
           s_fee := fee; s_notes := notes; s_batch_id := Some bid |} :: t_sells t)
   else t)
  :: batchSellTrades ids price date fee notes bid now (random ∘ S) prev.
Proof.
  unfold batchSellTrades at 1. simpl. f_equal.
  unfold gets_sale. fold (soldWeight t). fold (remaining t).
  destruct (includes ids (t_id t)); [|done].
  by destruct (num_leb (remaining t) num_zero).
Qed.

(** On a ledger where no sale carries the new batch id yet, the sales of
    the batch after the submit are the created ones, one per lot that gets
    a sale, each with the per-lot fee. *)
Lemma batch_created_fees (ids : list num) (price : num) (date : string) (fee : num)
    (notes : option string) (bid : string) (now : Z) (random : nat -> num)
    (prev : list (Trade num)) :
  (forall t, t ∈ prev -> forall s, s ∈ t_sells t -> s_batch_id s <> Some bid) ->
  created_fees bid (batchSellTrades ids price date fee notes bid now random prev) =
  replicate (length (List.filter (gets_sale ids) prev)) fee.
Proof.
  revert random. induction prev as [|t prev IH]; intros random Hno; [done|].
  rewrite batchSellTrades_cons. unfold created_fees in *. simpl.
  rewrite map_app. rewrite (IH (random ∘ S)) by (intros t' Ht'; apply Hno; by right).
  assert (Hnone : List.filter (batch_is bid) (t_sells t) = [])
    by (apply filter_batch_is_none, Hno; left).
  destruct (gets_sale ids t); simpl; [|by rewrite Hnone].
  unfold batch_is at 1. simpl. rewrite bool_decide_eq_true_2 by done.
  simpl. by rewrite Hnone.
Qed.

End Fees.

(** ** Every lot is shown once *)

Section Partition.
Context {num : Type} `{Number num}.
Variable getTime : string -> Z.

Lemma batches_alter_keys (f : Batch num -> Batch num) (k : string)
    (bs : list (string * Batch num)) :
  map fst (batches_alter f k bs) = map fst bs.
Proof.
  unfold batches_alter. induction bs as [|[k1 b1] bs IH]; simpl; [done|].
  rewrite IH. by destruct (bool_decide (k1 = k)).
Qed.

Lemma batches_alter_absent (f : Batch num -> Batch num) (k : string)
    (bs : list (string * Batch num)) :
  k ∉ map fst bs -> batches_alter f k bs = bs.
Proof.
  unfold batches_alter. induction bs as [|[k1 b1] bs IH]; simpl; [done|].
  intros Hk. apply not_elem_of_cons in Hk as [Hne Hk].
  rewrite bool_decide_eq_false_2 by done. by rewrite IH.
Qed.

Lemma batches_has_keys (bs : list (string * Batch num)) (k : string) :
  batches_has bs k = true <-> k ∈ map fst bs.
Proof.
  unfold batches_has. induction bs as [|[k1 b1] bs IH]; simpl.
  - split; [discriminate|intros Hk; by apply elem_of_nil in Hk].
  - rewrite orb_true_iff, IH, elem_of_cons, bool_decide_eq_true.
    split; (intros [?|?]; [left|right]; done).
Qed.

Lemma batches_push_trades (t : Trade num) (k : string) (bs : list (string * Batch num)) :
  NoDup (map fst bs) -> k ∈ map fst bs ->
  batches_trades (batches_alter (batch_push t) k bs) ≡ₚ t :: batches_trades bs.
Proof.
  unfold batches_trades.
  induction bs as [|[k1 b1] bs IH]; simpl; intros Hnd Hk.
  - by apply elem_of_nil in Hk.
  - apply NoDup_cons in Hnd as [Hk1 Hnd].
    destruct (bool_decide (k1 = k)) eqn:E.
    + apply bool_decide_eq_true in E. subst k1. simpl.
      fold (batches_alter (batch_push t) k bs).
      rewrite batches_alter_absent by done.
      rewrite <- app_assoc. simpl. symmetry. apply Permutation_middle.
    + apply bool_decide_eq_false in E. simpl.
      apply elem_of_cons in Hk as [->|Hk]; [done|].
      rewrite (IH Hnd Hk). symmetry. apply Permutation_middle.
Qed.

Lemma group_step_shown (ts : list (Trade num)) acc (t : Trade num) :
  shown_inv ts acc -> shown_inv (ts ++ [t]) (group_step acc t).
Proof.
  destruct acc as [bs sa]. intros (Hp & Hnd & Hne). simpl in Hp, Hnd, Hne.
  destruct (lot_batch t) as [bid|] eqn:Hl.
  - destruct (group_step_batched t bid bs sa Hl) as [s ->].
    set (bs1 := if batches_has bs bid then bs else bs ++ [(bid, batch_new bid s)]).
    assert (NoDup (map fst bs1) /\ bid ∈ map fst bs1 /\
                   batches_trades bs1 = batches_trades bs /\
                   Forall (fun kv => kv.1 <> bid -> b_trades kv.2 <> []) bs1)
      as (Hnd1 & Hin1 & Htr1 & Hne1).
    { subst bs1. destruct (batches_has bs bid) eqn:Hb.
      - apply batches_has_keys in Hb. repeat split; try done.
        eapply Forall_impl; [exact Hne|]. done.
      - assert (bid ∉ map fst bs) as Hnin.
        { intros Hin. apply batches_has_keys in Hin. congruence. }
        repeat split.
        + rewrite map_app. simpl. apply NoDup_app. repeat split; try done.
          * intros k Hk Hk'. apply list_elem_of_singleton in Hk'. by subst.
          * apply NoDup_singleton.
        + rewrite map_app. apply elem_of_app. right. simpl. left.
        + unfold batches_trades. rewrite map_app, concat_app. simpl.
          by rewrite app_nil_r.
        + apply Forall_app. split.
          * eapply Forall_impl; [exact Hne|]. done.
          * constructor; [|constructor]. simpl. done. }
    split; [|split]; simpl.
    + rewrite (batches_push_trades t bid bs1 Hnd1 Hin1), Htr1.
      rewrite <- Permutation_middle. rewrite Hp. apply Permutation_cons_append.
    + by rewrite batches_alter_keys.
    + unfold batches_alter. rewrite Forall_map.
      eapply Forall_impl; [exact Hne1|]. intros [k b] Hkb. simpl in *.
      destruct (bool_decide (k = bid)) eqn:E; simpl.
      * intros Hnil. by apply app_eq_nil in Hnil as [_ ?].
      * apply bool_decide_eq_false in E. by apply Hkb.
  - rewrite group_step_standalone by by rewrite Hl.
    split; [|split]; simpl; try done.
    rewrite <- app_assoc. rewrite <- Hp.
    rewrite <- !app_assoc. apply Permutation_app_head. simpl.
    by rewrite <- Permutation_middle, app_nil_r.
Qed.

Lemma group_trades_shown (ts : list (Trade num)) : shown_inv ts (group_trades ts).
Proof.
  unfold group_trades. induction ts as [|t ts IH] using rev_ind.
  - split; [done|]. split; constructor.
  - rewrite fold_left_app. simpl. by apply group_step_shown.
Qed.

(** The display list shares out the ledger: every lot is behind exactly one
    entry, on its own when none of its sales has a batch id and else in the
    view of the batch of its first such sale; the batch views have distinct
    ids and none is empty. *)
Theorem display_shows_each_lot_once (ts : list (Trade num)) :
  flat_map item_lots (displayItems getTime ts) ≡ₚ ts /\
  standalone_trades ts = List.filter (fun t => negb (str_truthy (lot_batch t))) ts /\
  NoDup (map b_id (batch_views ts)) /\
  Forall (fun b => b_trades b <> []) (batch_views ts).
Proof.
  destruct (group_trades_shown ts) as (Hp & Hnd & Hne).
  destruct (group_trades_inv ts) as (Hsa & _ & Hent).
  split; [|split; [exact Hsa|split]].
  - unfold displayItems.
    rewrite (Permutation_flat_map item_lots (array_sort_perm _ (unsorted_items getTime ts))).
    unfold unsorted_items. rewrite flat_map_app.
    assert (Hone : forall l : list (Trade num),
              flat_map item_lots (map (trade_item getTime) l) = l).
    { induction l as [|t l IH]; simpl; [done|by rewrite IH]. }
    assert (Hall : forall bs : list (Batch num),
              flat_map item_lots (map (batch_item getTime) bs) = concat (map b_trades bs)).
    { induction bs as [|b bs IH]; simpl; [done|by rewrite IH]. }
    rewrite Hone, Hall. unfold standalone_trades, batch_views. rewrite map_map. exact Hp.
  - unfold batch_views. rewrite map_map. simpl.
    assert (Heq : map (fun kv : string * Batch num => b_id kv.2) (group_trades ts).1
                  = map fst (group_trades ts).1).
    { apply map_ext_in. intros [k b] Hin. simpl.
      apply list_elem_of_In in Hin. by destruct (Hent k b Hin) as (-> & _). }
    change (NoDup (map (fun kv : string * Batch num => b_id kv.2) (group_trades ts).1)).
    by rewrite Heq.
  - unfold batch_views. rewrite Forall_map. eapply Forall_impl; [exact Hne|]. done.
Qed.

End Partition.

(** ** The chart *)

Lemma StronglySorted_weaken {A : Type} (R S : A -> A -> Prop) (l : list A) :
  (forall a b, R a b -> S a b) -> StronglySorted R l -> StronglySorted S l.
Proof.
  intros HRS. induction 1 as [|x l Hl IH Hx]; constructor; [done|].
  eapply Forall_impl; [exact Hx|]. intros y. apply HRS.
Qed.

Section Chart.
Context {num : Type} `{Number num}.
Variable getTime : string -> Z.
Variable formatDate : string -> string.
Variable round2 : num -> num.

Lemma sort_insert_map {A B : Type} (f : A -> B) (cmp : B -> B -> Z) (x : A) (l : list A) :
  sort_insert cmp (f x) (map f l) = map f (sort_insert (fun a b => cmp (f a) (f b)) x l).
Proof.
  induction l as [|y l IH]; simpl; [done|].
  destruct (cmp (f x) (f y) <=? 0)%Z; simpl; [done|]. by rewrite IH.
Qed.

Lemma array_sort_map {A B : Type} (f : A -> B) (cmp : B -> B -> Z) (l : list A) :
  array_sort cmp (map f l) = map f (array_sort (fun a b => cmp (f a) (f b)) l).
Proof.
  unfold array_sort. induction l as [|x l IH]; simpl; [done|].
  by rewrite IH, sort_insert_map.
Qed.

(** The chart has one point per sale of the ledger, in ascending order of
    the time of the sale date; the point of a sale carries the text of its
    date and its profit rounded to two decimals. *)
Theorem chart_one_point_per_sale_in_time_order (ts : list (Trade num)) :
  exists sales : list (Trade num * Sell num),
    sales ≡ₚ all_sales ts /\
    StronglySorted
      (fun p q => (getTime (s_sell_date p.2) <= getTime (s_sell_date q.2))%Z) sales /\
    chartData getTime formatDate round2 ts = map (chart_point formatDate round2) sales.
Proof.
  set (cmp := fun p q : Trade num * Sell num =>
                (getTime (s_sell_date p.2) - getTime (s_sell_date q.2))%Z).
  exists (array_sort cmp (all_sales ts)).
  split; [apply array_sort_perm|]. split.
  - eapply StronglySorted_weaken; [|apply (array_sort_sorted cmp)].
    + intros p q. unfold cmp_le, cmp. lia.
    + intros p q. unfold cmp_le, cmp. lia.
    + intros p q r. unfold cmp_le, cmp. lia.
  - rewrite chartData_rows, array_sort_map, map_map. reflexivity.
Qed.

End Chart.

(** ** Mounting and saving *)

Section Mount.
Context {num : Type} `{Number num}.
Variable JSON_parse : string -> Exec (list (Trade num)).
Variable JSON_stringify : list (Trade num) -> string.

(** What the sync effect saves, the next mount loads: when the text of
    the ledger parses back to it, a mount on the storage left by the sync
    effect ends with the same ledger and an empty console. *)
Theorem saved_ledger_is_loaded (st : State num) (w : World num) :
  loading st = false ->
  JSON_stringify (trades st) <> "" ->
  JSON_parse (JSON_stringify (trades st)) = Returned (trades st) ->
  exists w',
    mount JSON_parse JSON_stringify (w_storage (syncEffect JSON_stringify st w)) = Returned w' /\
    trades (w_state w') = trades st /\
    w_console w' = [] /\
    w_storage w' = Some (JSON_stringify (trades st)).
Proof.
  intros Hl Hne Hp. unfold syncEffect. rewrite Hl. simpl.
  unfold mount, loadEffect. simpl.
  rewrite bool_decide_eq_false_2 by done. simpl. rewrite Hp. simpl.
  eexists. repeat split; reflexivity.
Qed.

End Mount.

Section MountParsed.
Context {num : Type} `{Number num}.
Variable JSON_parse : string -> Exec (Parsed num).
Variable JSON_stringify : list (Trade num) -> string.

(** On the texts that denote a ledger, [mountParsed] is [mount]. *)
Lemma mountParsed_ledger (parse : string -> Exec (list (Trade num)))
    (storage : option string) :
  (forall text, JSON_parse text = exec_bind (parse text) (fun ts => Returned (ParsedLedger ts))) ->
  mountParsed JSON_parse JSON_stringify storage = mount parse JSON_stringify storage.
Proof.
  intros Hparse. unfold mountParsed, mount, loadEffectParsed, loadEffect. simpl.
  destruct storage as [text|]; simpl; [|done].
  destruct (bool_decide (text = "")); simpl; [done|].
  rewrite Hparse. by destruct (parse text).
Qed.


End MountParsed.

(** ** What the handlers leave alone, and what they undo *)

Section Frames.
Context {num : Type} `{Number num}.

Lemma with_sells_same (t : Trade num) : with_sells t (t_sells t) = t.
Proof. by destruct t. Qed.

Lemma filter_keep_all {A : Type} (f : A -> bool) (l : list A) :
  Forall (fun x => f x = true) l -> List.filter f l = l.
Proof. induction 1 as [|x l Hx Hl IH]; simpl; [done|]. by rewrite Hx, IH. Qed.

Lemma filter_filter_same {A : Type} (f : A -> bool) (l : list A) :
  List.filter f (List.filter f l) = List.filter f l.
Proof.
  apply filter_keep_all. apply Forall_forall. intros x Hx.
  apply list_elem_of_In in Hx. by apply filter_In in Hx as [_ ?].
Qed.

Lemma map_id_on {A : Type} (g : A -> A) (l : list A) :
  (forall x, x ∈ l -> g x = x) -> map g l = l.
Proof.
  induction l as [|x l IH]; intros Hg; simpl; [done|].
  rewrite Hg by left. f_equal. apply IH. intros y Hy. apply Hg. by right.
Qed.


Lemma batchSellTrades_lookup (ids : list num) (price : num) (date : string) (fee : num)
    (notes : option string) (bid : string) (now : Z) (random : nat -> num)
    (prev : list (Trade num)) (i : nat) :
  batchSellTrades ids price date fee notes bid now random prev !! i =
  (fun t =>
     if gets_sale ids t then
       with_sells t
         ({| s_id := num_add (num_of_Z now) (random i); s_trade_id := t_id t;
             s_sell_price := price; s_quantity := remaining t; s_sell_date := date;
             s_fee := fee; s_notes := notes; s_batch_id := Some bid |} :: t_sells t)
     else t) <$> prev !! i.
Proof.
  unfold batchSellTrades. rewrite list_lookup_imap.
  destruct (prev !! i) as [t|]; simpl; [|done]. f_equal.
  unfold gets_sale. fold (soldWeight t). fold (remaining t).
  destruct (includes ids (t_id t)); [|done].
  by destruct (num_leb (remaining t) num_zero).
Qed.

(** *** What a sell submit leaves alone *)

(** A sell submit never adds, removes, reorders or rewrites a lot: ids,
    prices, quantities, dates and notes stay, and each lot keeps its number
    of sales or gains one.  When it is not applied the state is the same;
    a batch submit with nothing ticked changes no lot; a single submit
    leaves the ticks. *)
Theorem sell_submit_frame (st : State num) (form : SellForm num) (now : Z)
    (random : nat -> num) :
  let r := handleSellSubmit st form now random in
  map lot_data (trades r.1) = map lot_data (trades st) /\
  (forall i t t', trades st !! i = Some t -> trades r.1 !! i = Some t' ->
     (length (t_sells t) <= length (t_sells t') <= S (length (t_sells t)))%nat) /\
  (r.2 <> Applied -> r.1 = st) /\
  (isBatchSelling st = true -> selectedTradeIds st = [] -> trades r.1 = trades st) /\
  (isBatchSelling st = false -> selectedTradeIds r.1 = selectedTradeIds st).
Proof.
  unfold handleSellSubmit. destruct (isBatchSelling st) eqn:Hb; simpl.
  - split; [|split; [|split; [|split]]].
    + apply list_eq. intros i. rewrite !list_lookup_fmap, batchSellTrades_lookup.
      destruct (trades st !! i) as [t|]; simpl; [|done]. by destruct (gets_sale _ t).
    + intros i t t' Hi Hi'. rewrite batchSellTrades_lookup, Hi in Hi'. simpl in Hi'.
      injection Hi' as <-. destruct (gets_sale _ t); simpl; lia.
    + done.
    + intros _ Hsel. rewrite Hsel. apply list_eq. intros i.
      rewrite batchSellTrades_lookup. by destruct (trades st !! i).
    + discriminate.
  - destruct (target_tradeId st) as [tid|];
      [|split; [done|split; [|done]]; intros i t t' Hi Hi'; simpl in *;
        rewrite Hi in Hi'; injection Hi' as <-; lia].
    destruct (find _ (trades st)) as [trade|];
      [|split; [done|split; [|done]]; intros i t t' Hi Hi'; simpl in *;
        rewrite Hi in Hi'; injection Hi' as <-; lia].
    destruct (num_gtb _ _);
      [split; [done|split; [|done]]; intros i t t' Hi Hi'; simpl in *;
        rewrite Hi in Hi'; injection Hi' as <-; lia|].
    destruct (editingSell st) as [[es etid]|]; simpl.
    + split; [|split; [|done]].
      * rewrite map_map. apply map_ext. intros t. by case_match.
      * intros i t t' Hi Hi'. change (map ?f ?l) with (f <$> l) in Hi'.
        rewrite list_lookup_fmap, Hi in Hi'. simpl in Hi'. injection Hi' as <-.
        case_match; simpl; [rewrite length_map|]; lia.
    + split; [|split; [|done]].
      * rewrite map_map. apply map_ext. intros t. by case_match.
      * intros i t t' Hi Hi'. change (map ?f ?l) with (f <$> l) in Hi'.
        rewrite list_lookup_fmap, Hi in Hi'. simpl in Hi'. injection Hi' as <-.
        case_match; simpl; lia.
Qed.

(** *** Undoing a creation *)

(** Deleting the lot just created gives the state back, when no lot and
    no tick had the clock reading as id. *)
Theorem delete_undoes_create_lot (st : State num) (form : TradeForm num) (now : Z) :
  editingTrade st = None ->
  num_eqb (num_of_Z now) (num_of_Z now) = true ->
  Forall (fun t => num_eqb (t_id t) (num_of_Z now) = false) (trades st) ->
  Forall (fun i => num_eqb i (num_of_Z now) = false) (selectedTradeIds st) ->
  handleDelete (handleSubmit st form now) (num_of_Z now) = st.
Proof.
  intros He Hrefl Hlots Hsel. unfold handleSubmit. rewrite He.
  unfold handleDelete. simpl. rewrite Hrefl. simpl.
  rewrite !filter_keep_all.
  - by destruct st.
  - eapply Forall_impl; [exact Hsel|]. intros i Hi. simpl in Hi. by rewrite Hi.
  - eapply Forall_impl; [exact Hlots|]. intros t Ht. simpl in Ht. by rewrite Ht.
Qed.

(** Deleting the sale just recorded gives the ledger back, when no sale
    had the clock reading as id. *)
Theorem delete_undoes_create_sale (st : State num) (form : SellForm num) (now : Z)
    (random : nat -> num) (tradeId : num) :
  isBatchSelling st = false ->
  editingSell st = None ->
  target_tradeId st = Some tradeId ->
  num_eqb (num_of_Z now) (num_of_Z now) = true ->
  Forall (fun t => Forall (fun s => num_eqb (s_id s) (num_of_Z now) = false) (t_sells t))
         (trades st) ->
  trades (handleDeleteSell (handleSellSubmit st form now random).1 tradeId (num_of_Z now))
  = trades st.
Proof.
  intros Hb He Ht Hrefl Hfresh.
  assert (Hundo : forall ts : list (Trade num),
            Forall (fun t => Forall (fun s => num_eqb (s_id s) (num_of_Z now) = false)
                               (t_sells t)) ts ->
            map (fun t =>
                   if num_eqb (t_id t) tradeId
                   then with_sells t
                          (List.filter (fun s => negb (num_eqb (s_id s) (num_of_Z now)))
                             (t_sells t))
                   else t) ts = ts).
  { intros ts Hts. apply map_id_on. intros t Hin.
    rewrite Forall_forall in Hts. specialize (Hts t Hin).
    case_match; [|done]. rewrite filter_keep_all; [apply with_sells_same|].
    eapply Forall_impl; [exact Hts|]. intros s Hs. simpl in Hs. by rewrite Hs. }
  unfold handleSellSubmit. rewrite Hb, Ht.
  destruct (find _ (trades st)) as [trade|]; [|by apply Hundo].
  destruct (num_gtb _ _); [by apply Hundo|].
  rewrite He. simpl. rewrite map_map. apply map_id_on. intros t Hin.
  rewrite Forall_forall in Hfresh. specialize (Hfresh t Hin).
  destruct (num_eqb (t_id t) tradeId) eqn:E; simpl; rewrite E; [|done].
  rewrite Hrefl. simpl. rewrite filter_keep_all; [by destruct t|].
  eapply Forall_impl; [exact Hfresh|]. intros s Hs. simpl in Hs. by rewrite Hs.
Qed.

(** *** Ticking lots *)

(** Ticking flips whether the id is ticked, ticking an unticked id twice
    restores the ticks, and the ledger is not touched.  ([includes]
    compares with SameValueZero, the filter with [!==]: they agree on
    every id but [NaN].) *)
Theorem toggle_flips_membership (st : State num) (id : num) :
  (forall i, num_same i id = num_eqb i id) ->
  num_same id id = true ->
  includes (selectedTradeIds (toggleSelection st id)) id
    = negb (includes (selectedTradeIds st) id) /\
  (includes (selectedTradeIds st) id = false ->
   selectedTradeIds (toggleSelection (toggleSelection st id) id) = selectedTradeIds st) /\
  trades (toggleSelection st id) = trades st.
Proof.
  intros Hsame Hrefl.
  assert (Hgone : forall l, includes (List.filter (fun i => negb (num_eqb i id)) l) id = false).
  { intros l. unfold includes. induction l as [|i l IH]; simpl; [done|].
    destruct (num_eqb i id) eqn:E; simpl; [done|]. by rewrite Hsame, E. }
  assert (Hkeep : forall l, includes l id = false ->
                    List.filter (fun i => negb (num_eqb i id)) l = l).
  { intros l. unfold includes. induction l as [|i l IH]; simpl; [done|].
    intros Hl. apply orb_false_iff in Hl as [Hi Hl]. rewrite Hsame in Hi.
    rewrite Hi. simpl. by rewrite IH. }
  split; [|split; [|done]].
  - simpl. destruct (includes (selectedTradeIds st) id) eqn:E; simpl; [apply Hgone|].
    unfold includes. rewrite existsb_app. simpl. rewrite Hrefl.
    by rewrite orb_true_r.
  - intros Hout. simpl. rewrite Hout.
    assert (includes (selectedTradeIds st ++ [id]) id = true) as ->.
    { unfold includes. rewrite existsb_app. simpl. by rewrite Hrefl, orb_true_r. }
    rewrite List.filter_app. simpl. rewrite <- Hsame, Hrefl. simpl.
    by rewrite app_nil_r, Hkeep.
Qed.

(** *** Deleting *)

(** [handleDelete] removes the lots with this id and its tick and nothing
    else, keeping the order; deleting again changes nothing. *)
Theorem handleDelete_removes_lot_and_tick (st : State num) (id : num) :
  (forall t, t ∈ trades (handleDelete st id) <->
             t ∈ trades st /\ num_eqb (t_id t) id = false) /\
  (forall i, i ∈ selectedTradeIds (handleDelete st id) <->
             i ∈ selectedTradeIds st /\ num_eqb i id = false) /\
  sublist (trades (handleDelete st id)) (trades st) /\
  handleDelete (handleDelete st id) id = handleDelete st id.
Proof.
  split; [|split; [|split]].
  - intros t. simpl. rewrite list_elem_of_In, filter_In, <- list_elem_of_In.
    by rewrite negb_true_iff.
  - intros i. simpl. rewrite list_elem_of_In, filter_In, <- list_elem_of_In.
    by rewrite negb_true_iff.
  - apply filter_sublist.
  - unfold handleDelete. simpl. by rewrite !filter_filter_same.
Qed.

(** [handleDeleteSell] keeps every lot with its data, leaves the lots
    with another id as they are, and removes from a lot with this id the
    sales with this sale id and no other; deleting again changes nothing. *)
Theorem handleDeleteSell_removes_only_that_sale (st : State num) (tradeId sellId : num) :
  map lot_data (trades (handleDeleteSell st tradeId sellId)) = map lot_data (trades st) /\
  (forall i t, trades st !! i = Some t ->
     exists t', trades (handleDeleteSell st tradeId sellId) !! i = Some t' /\
       sublist (t_sells t') (t_sells t) /\
       (num_eqb (t_id t) tradeId = false -> t' = t) /\
       (num_eqb (t_id t) tradeId = true ->
        forall s, s ∈ t_sells t' <-> s ∈ t_sells t /\ num_eqb (s_id s) sellId = false)) /\
  handleDeleteSell (handleDeleteSell st tradeId sellId) tradeId sellId
    = handleDeleteSell st tradeId sellId.
Proof.
  split; [|split].
  - simpl. rewrite map_map. apply map_ext. intros t. by case_match.
  - intros i t Hi. simpl. change (map ?f ?l) with (f <$> l).
    rewrite list_lookup_fmap, Hi. simpl. eexists. split; [reflexivity|].
    destruct (num_eqb (t_id t) tradeId); simpl.
    + split; [apply filter_sublist|]. split; [discriminate|]. intros _ s.
      rewrite list_elem_of_In, filter_In, <- list_elem_of_In. by rewrite negb_true_iff.
    + split; [done|]. split; [done|discriminate].
  - unfold handleDeleteSell. simpl. f_equal. rewrite map_map. apply map_ext.
    intros t. destruct (num_eqb (t_id t) tradeId) eqn:E; simpl; rewrite E; [|done].
    unfold with_sells. simpl. by rewrite filter_filter_same.
Qed.

(** *** Editing a lot *)

(** Saving the lot form in edit mode keeps the ids and the sales of every
    lot, rewrites the lots with the id of the lot being edited from the
    form, leaves the others, and closes the edit. *)
Theorem lot_edit_keeps_sales (st : State num) (form : TradeForm num) (now : Z)
    (et : Trade num) :
  editingTrade st = Some et ->
  let st' := handleSubmit st form now in
  map t_id (trades st') = map t_id (trades st) /\
  map t_sells (trades st') = map t_sells (trades st) /\
  (forall i t, trades st !! i = Some t -> num_eqb (t_id t) (t_id et) = false ->
               trades st' !! i = Some t) /\
  (forall i t, trades st !! i = Some t -> num_eqb (t_id t) (t_id et) = true ->
               trades st' !! i = Some (edit_trade form t)) /\
  editingTrade st' = None.
Proof.
  intros He st'. subst st'. unfold handleSubmit. rewrite He. simpl.
  split; [|split; [|split; [|split; [|done]]]].
  - rewrite map_map. apply map_ext. intros t. by case_match.
  - rewrite map_map. apply map_ext. intros t. by case_match.
  - intros i t Hi E. change (map ?f ?l) with (f <$> l).
    rewrite list_lookup_fmap, Hi. simpl. by rewrite E.
  - intros i t Hi E. change (map ?f ?l) with (f <$> l).
    rewrite list_lookup_fmap, Hi. simpl. by rewrite E.
Qed.

(** Opening the edit form on a lot and saving it untouched leaves the
    ledger as it was, when no other lot has its id, its numbers read back
    from their text and its note is not the empty text. *)
Theorem saving_unchanged_lot_form_is_identity (reparse : num -> num) (st : State num)
    (t : Trade num) (now : Z) :
  (forall t', t' ∈ trades st -> num_eqb (t_id t') (t_id t) = true -> t' = t) ->
  reparse (t_buy_price t) = t_buy_price t ->
  reparse (t_quantity t) = t_quantity t ->
  t_notes t <> Some "" ->
  trades (handleSubmit (startEditTrade st t) (tradeForm_of reparse t) now) = trades st.
Proof.
  intros Huniq Hprice Hquantity Hnotes. unfold handleSubmit. simpl.
  apply map_id_on. intros t' Hin.
  destruct (num_eqb (t_id t') (t_id t)) eqn:E; [|done].
  rewrite (Huniq t' Hin E). unfold edit_trade, tradeForm_of. simpl.
  rewrite Hprice, Hquantity.
  destruct t as [i p q d n ss]. simpl in *. f_equal.
  destruct n as [s|]; simpl; [|done].
  unfold or_null. rewrite bool_decide_eq_false_2; [done|]. congruence.
Qed.

(** *** The sales a submit creates *)

Lemma batch_created_quantities (ids : list num) (price : num) (date : string) (fee : num)
    (notes : option string) (bid : string) (now : Z) (random : nat -> num)
    (prev : list (Trade num)) :
  (forall t, t ∈ prev -> forall s, s ∈ t_sells t -> s_batch_id s <> Some bid) ->
  created_quantities bid (batchSellTrades ids price date fee notes bid now random prev) =
  map remaining (List.filter (gets_sale ids) prev).
Proof.
  revert random. induction prev as [|t prev IH]; intros random Hno; [done|].
  rewrite batchSellTrades_cons. unfold created_quantities in *. simpl.
  rewrite map_app. rewrite (IH (random ∘ S)) by (intros t' Ht'; apply Hno; by right).
  assert (Hnone : List.filter (batch_is bid) (t_sells t) = [])
    by (apply filter_batch_is_none, Hno; left).
  destruct (gets_sale ids t); simpl; [|by rewrite Hnone].
  unfold batch_is at 1. simpl. rewrite bool_decide_eq_true_2 by done.
  simpl. by rewrite Hnone.
Qed.

(** The weight announced for the ticked lots, [selectedTotalWeight], is the
    weight a batch sale sells: when every ticked lot has something left,
    the quantities of the sales it creates add up to it, as the same
    running sum. *)
Theorem batch_form_quantity_is_sold (st : State num) (form : SellForm num) (now : Z)
    (random : nat -> num) :
  isBatchSelling st = true ->
  (forall t, t ∈ trades st -> forall s, s ∈ t_sells t ->
             s_batch_id s <> Some ("batch-" +:+ pretty now)) ->
  Forall (fun t => includes (selectedTradeIds st) (t_id t) = true ->
                   num_leb (remaining t) num_zero = false) (trades st) ->
  sum_by (fun q => q)
    (created_quantities ("batch-" +:+ pretty now)
       (trades (handleSellSubmit st form now random).1))
  = selectedTotalWeight st.
Proof.
  intros Hb Hnew Hpos. unfold handleSellSubmit. rewrite Hb. simpl trades.
  rewrite batch_created_quantities by done.
  assert (Hsame : List.filter (gets_sale (selectedTradeIds st)) (trades st)
                  = List.filter (fun t => includes (selectedTradeIds st) (t_id t)) (trades st)).
  { clear Hnew. induction Hpos as [|t ts Ht Hts IH]; simpl; [done|].
    unfold gets_sale at 1.
    destruct (includes (selectedTradeIds st) (t_id t)); simpl; [|exact IH].
    rewrite (Ht eq_refl). simpl. by rewrite IH. }
  rewrite Hsame. unfold sum_by at 1, selectedTotalWeight.
  by rewrite fold_left_fmap.
Qed.

(** *** Saving a form as it was opened *)

(** Opening the edit form on a sale and saving it untouched never changes
    the ledger, whether the submit is applied or rejected, when no other
    lot has the id of the lot and no other sale of the lot the id of the
    sale, the numbers of the sale read back from their text, its note is
    not the empty text and no lot is selected for a new sale. *)
Theorem saving_unchanged_sale_form_is_identity (reparse : num -> num) (st : State num)
    (trade : Trade num) (s : Sell num) (now : Z) (random : nat -> num) :
  (forall t', t' ∈ trades st -> num_eqb (t_id t') (t_id trade) = true -> t' = trade) ->
  (forall s', s' ∈ t_sells trade -> num_eqb (s_id s') (s_id s) = true -> s' = s) ->
  reparse (s_sell_price s) = s_sell_price s ->
  reparse (s_quantity s) = s_quantity s ->
  reparse (s_fee s) = s_fee s ->
  s_notes s <> Some "" ->
  isBatchSelling st = false ->
  sellingTradeId st = None ->
  let r := handleSellSubmit (startEditSell st (t_id trade) s) (sellForm_of reparse s)
             now random in
  trades r.1 = trades st /\
  (r.2 = Applied \/ r.1 = startEditSell st (t_id trade) s).
Proof.
  intros Hlots Hsales Hrp Hrq Hrf Hnotes Hb Hsell r. subst r.
  unfold handleSellSubmit. cbn [isBatchSelling startEditSell]. rewrite Hb.
  unfold target_tradeId. cbn [sellingTradeId editingSell startEditSell]. rewrite Hsell.
  destruct (num_truthy (t_id trade)); [|by split; [|right]].
  cbn [trades startEditSell].
  destruct (find _ (trades st)) as [tr|]; [|by split; [|right]].
  destruct (num_gtb _ _); [by split; [|right]|].
  split; [|by left]. cbn [trades fst].
  apply map_id_on. intros t Ht.
  destruct (num_eqb (t_id t) (t_id trade)) eqn:E; [|done].
  rewrite (Hlots t Ht E). rewrite map_id_on; [apply with_sells_same|].
  intros s' Hs'. destruct (num_eqb (s_id s') (s_id s)) eqn:E'; [|done].
  rewrite (Hsales s' Hs' E'). unfold edit_sell, sellForm_of. simpl.
  rewrite Hrp, Hrq, Hrf. destruct s as [a b c d e f n g]. simpl in *. f_equal.
  destruct n as [x|]; simpl; [|done].
  unfold or_null. rewrite bool_decide_eq_false_2; [done|]. congruence.
Qed.

End Frames.

(** ** Batch cards *)

Section BatchCards.
Context {num : Type} `{Number num}.

(** Every batch view has a member lot. *)
Lemma batch_view_member (ts : list (Trade num)) (b : Batch num) :
  b ∈ batch_views ts ->
  b_trades b = List.filter (member_of (b_id b)) ts /\
  exists t, t ∈ ts /\ lot_batch t = Some (b_id b).
Proof.
  unfold batch_views. rewrite list_elem_of_fmap. intros ([k b0] & -> & Hin). simpl.
  destruct (group_trades_inv ts) as (_ & _ & Hent).
  destruct (group_trades_shown ts) as (_ & _ & Hne).
  rewrite Forall_forall in Hne. specialize (Hne _ Hin). simpl in Hne.
  destruct (Hent k b0 Hin) as (Hid & Htr & _). subst k. split; [exact Htr|].
  rewrite Htr in Hne.
  destruct (List.filter (member_of (b_id b0)) ts) as [|t l] eqn:Hf; [done|].
  assert (Ht : t ∈ List.filter (member_of (b_id b0)) ts) by (rewrite Hf; left).
  apply list_elem_of_In, filter_In in Ht as [Ht Hm]. exists t.
  split; [by apply list_elem_of_In|]. unfold member_of in Hm.
  by apply bool_decide_eq_true in Hm.
Qed.

(** A member lot of batch [bid] is in the view of [bid] and not on its own. *)
Lemma member_in_view (ts : list (Trade num)) (t : Trade num) (bid : string) :
  t ∈ ts -> lot_batch t = Some bid ->
  (t ∉ standalone_trades ts) /\
  exists b, b ∈ batch_views ts /\ b_id b = bid /\ t ∈ b_trades b.
Proof.
  intros Hin Hl. destruct (group_trades_inv ts) as (Hsa & Hkeys & Hent).
  assert (Hmem : member_of bid t = true).
  { unfold member_of. by rewrite Hl, bool_decide_eq_true_2. }
  split.
  - unfold standalone_trades. rewrite Hsa. intros Hst.
    apply list_elem_of_In, filter_In in Hst as [_ Hst].
    rewrite Hl, (lot_batch_truthy t bid Hl) in Hst. discriminate.
  - destruct (batches_has (group_trades ts).1 bid) eqn:Eb.
    + apply batches_has_keys, list_elem_of_fmap in Eb as ([k b0] & Hk & Hb0).
      simpl in Hk. subst k. destruct (Hent bid b0 Hb0) as (Hid & Htr & _).
      exists (batch_totals b0). split; [|split].
      * unfold batch_views. apply list_elem_of_fmap. by exists (bid, b0).
      * exact Hid.
      * simpl. rewrite Htr. apply list_elem_of_In, filter_In.
        split; [by apply list_elem_of_In|done].
    + exfalso. specialize (Hkeys bid Eb).
      assert (t ∈ List.filter (member_of bid) ts) as Hf.
      { apply list_elem_of_In, filter_In. split; [by apply list_elem_of_In|done]. }
      rewrite Hkeys in Hf. by apply elem_of_nil in Hf.
Qed.

(** A lot that gets a sale in a batch submit keeps its place and its data
    and moves to the card of the new batch: its first sale with a batch id
    is the new one, so it is no longer shown on its own and is among the
    lots of the batch view with the new id.  The submit also clears the
    ticks and the batch mode. *)
Theorem batch_sale_moves_lot_to_batch_card (st : State num) (form : SellForm num)
    (now : Z) (random : nat -> num) (i : nat) (t : Trade num) :
  isBatchSelling st = true ->
  trades st !! i = Some t ->
  gets_sale (selectedTradeIds st) t = true ->
  let st' := (handleSellSubmit st form now random).1 in
  let bid := "batch-" +:+ pretty now in
  exists t',
    trades st' !! i = Some t' /\
    lot_data t' = lot_data t /\
    lot_batch t' = Some bid /\
    (t' ∉ standalone_trades (trades st')) /\
    (exists b, b ∈ batch_views (trades st') /\ b_id b = bid /\ t' ∈ b_trades b) /\
    selectedTradeIds st' = [] /\ isBatchSelling st' = false.
Proof.
  intros Hb Hi Hg st' bid. subst st'. unfold handleSellSubmit. rewrite Hb.
  cbn [fst trades selectedTradeIds isBatchSelling].
  match goal with |- context [batchSellTrades ?a ?b ?c ?d ?e ?f ?g ?h ?k] =>
    set (ts' := batchSellTrades a b c d e f g h k) end.
  assert (Hi' : ts' !! i = _) by (subst ts'; apply batchSellTrades_lookup).
  rewrite Hi in Hi'. cbn [fmap option_fmap option_map] in Hi'. rewrite Hg in Hi'.
  eexists. split; [exact Hi'|].
  match type of Hi' with _ = Some ?x => set (t' := x) in * end.
  assert (Hl : lot_batch t' = Some bid).
  { unfold lot_batch, find_batchSell. subst t' bid. simpl. reflexivity. }
  assert (Hin : t' ∈ ts') by (eapply list_elem_of_lookup_2; exact Hi').
  destruct (member_in_view ts' t' bid Hin Hl) as [Hns Hv].
  split; [by destruct t|]. split; [exact Hl|]. split; [exact Hns|].
  split; [exact Hv|]. done.
Qed.

Lemma filter_filter_comm {A : Type} (f g : A -> bool) (l : list A) :
  List.filter f (List.filter g l) = List.filter g (List.filter f l).
Proof.
  induction l as [|x l IH]; simpl; [done|].
  destruct (f x) eqn:Ef, (g x) eqn:Eg; simpl; rewrite ?Ef, ?Eg, IH; done.
Qed.

(** Deleting a batch from its card removes that card and no lot card: no
    batch view of the new ledger has this id, the lots shown on their own
    are the same, and every batch view that stays is a view of the old
    ledger with the same id and a part of its lots. *)
Theorem delete_batch_removes_its_card_only (st : State num) (batchId : string) :
  batchId <> "" ->
  let ts' := trades (handleDeleteBatch st batchId) in
  Forall (fun b => b_id b <> batchId) (batch_views ts') /\
  standalone_trades ts' = standalone_trades (trades st) /\
  (forall b', b' ∈ batch_views ts' ->
     exists b, b ∈ batch_views (trades st) /\ b_id b = b_id b' /\
               sublist (b_trades b') (b_trades b)).
Proof.
  intros Hne ts'. subst ts'. simpl trades.
  set (keep := fun t : Trade num => negb (existsb (batch_is batchId) (t_sells t))).
  set (ts := trades st).
  split; [|split].
  - apply Forall_forall. intros b Hb Hid.
    apply batch_view_member in Hb as (_ & t & Ht & Hm).
    apply list_elem_of_In, filter_In in Ht as [_ Hk].
    unfold keep in Hk. apply negb_true_iff in Hk.
    unfold lot_batch, find_batchSell in Hm.
    destruct (find _ (t_sells t)) as [s|] eqn:Es; [|discriminate].
    apply find_some in Es as [Hs _].
    rewrite existsb_batch_is in Hk. apply (Hk s); [by apply list_elem_of_In|].
    by rewrite Hm, Hid.
  - unfold standalone_trades.
    destruct (group_trades_inv (List.filter keep ts)) as (-> & _).
    destruct (group_trades_inv ts) as (-> & _).
    rewrite filter_filter_comm. apply filter_keep_all. apply Forall_forall.
    intros t Ht. apply list_elem_of_In, filter_In in Ht as [_ Ht].
    unfold keep. apply negb_true_iff. apply existsb_batch_is. intros s Hs Hbid.
    apply negb_true_iff in Ht. unfold lot_batch, find_batchSell in Ht.
    destruct (find _ (t_sells t)) as [s0|] eqn:Es.
    + apply find_some in Es as [_ Es]. congruence.
    + apply list_elem_of_In in Hs. pose proof (find_none _ _ Es s Hs) as Hn.
      simpl in Hn. rewrite Hbid in Hn. simpl in Hn.
      rewrite bool_decide_eq_false_2 in Hn by done. discriminate.
  - intros b' Hb'.
    apply batch_view_member in Hb' as (Htr & t & Ht & Hm).
    apply list_elem_of_In, filter_In in Ht as [Ht _]. apply list_elem_of_In in Ht.
    destruct (member_in_view ts t (b_id b') Ht Hm) as (_ & b & Hb & Hbid & _).
    exists b. split; [exact Hb|]. split; [exact Hbid|].
    apply batch_view_member in Hb as (Htr1 & _).
    rewrite Htr, Htr1, Hbid, filter_filter_comm. apply filter_sublist.
Qed.
End BatchCards.

(** ** The sale groups of a lot card *)

Section Groups.
Context {num : Type} `{Number num}.
Variable getTime : string -> Z.

Lemma groups_push_keys (k : string) (s : Sell num) gs :
  map fst (groups_push k s gs) = map fst gs.
Proof. unfold groups_push. rewrite map_map. apply map_ext. intros kv. by case_match. Qed.

Lemma groups_has_keys gs (k : string) :
  groups_has (num:=num) gs k = true <-> k ∈ map fst gs.
Proof.
  unfold groups_has. rewrite existsb_exists, list_elem_of_In, in_map_iff.
  split; intros (kv & H1 & H2); exists kv.
  - apply bool_decide_eq_true in H2. done.
  - split; [done|]. by apply bool_decide_eq_true.
Qed.

Lemma groups_push_elem (k : string) (s : Sell num) gs k' g' :
  (k', g') ∈ groups_push k s gs ->
  (k' = k /\ exists g, (k, g) ∈ gs /\ g' = g ++ [s]) \/ (k' <> k /\ (k', g') ∈ gs).
Proof.
  unfold groups_push. rewrite list_elem_of_In, in_map_iff.
  intros ([k0 g0] & Heq & Hin). apply list_elem_of_In in Hin. simpl in Heq.
  destruct (bool_decide (k0 = k)) eqn:E.
  - apply bool_decide_eq_true in E. subst k0. injection Heq as <- <-.
    left. split; [done|]. by exists g0.
  - apply bool_decide_eq_false in E. injection Heq as <- <-. by right.
Qed.

Lemma batch_is_truthy (k : string) (s : Sell num) :
  batch_is k s = true -> k <> "" -> str_truthy (s_batch_id s) = true.
Proof.
  unfold batch_is. intros Hb Hk. apply bool_decide_eq_true in Hb. rewrite Hb. simpl.
  by rewrite bool_decide_eq_false_2.
Qed.

Lemma groupedSells_step_inv (sells : list (Sell num)) acc (s : Sell num) :
  groups_inv sells acc -> groups_inv (sells ++ [s]) (groupedSells_step acc s).
Proof.
  destruct acc as [groups individual]. intros (Hind & Hnd & Hgr & Hno).
  simpl in Hind, Hnd, Hgr, Hno. unfold groupedSells_step.
  destruct (str_truthy (s_batch_id s)) eqn:Etr.
  - destruct (s_batch_id s) as [bId|] eqn:Eid; [|done].
    assert (HbId : bId <> "").
    { simpl in Etr. apply negb_true_iff, bool_decide_eq_false in Etr. done. }
    assert (Hself : batch_is bId s = true).
    { unfold batch_is. by rewrite Eid, bool_decide_eq_true_2. }
    assert (Hother : forall k, k <> bId -> batch_is k s = false).
    { intros k Hk. unfold batch_is. rewrite Eid. apply bool_decide_eq_false. congruence. }
    split; [|split; [|split]]; simpl.
    + rewrite List.filter_app. simpl. rewrite Eid. simpl.
      rewrite bool_decide_eq_false_2 by done. simpl. by rewrite app_nil_r.
    + rewrite groups_push_keys. destruct (groups_has groups bId) eqn:Eh; [done|].
      rewrite map_app. simpl. apply NoDup_app. split; [done|]. split.
      * intros x Hx Hx'. apply list_elem_of_singleton in Hx'. subst x.
        apply groups_has_keys in Hx. congruence.
      * apply NoDup_singleton.
    + intros k g Hin. apply groups_push_elem in Hin as [(-> & g0 & Hin & ->)|(Hk & Hin)].
      * split; [done|]. split; [by destruct g0|].
        rewrite List.filter_app. simpl. rewrite Hself. f_equal.
        destruct (groups_has groups bId) eqn:Eh.
        -- by apply Hgr in Hin as (_ & _ & ?).
        -- apply elem_of_app in Hin as [Hin|Hin].
           ++ exfalso. assert (bId ∈ map fst groups).
              { apply list_elem_of_fmap. by exists (bId, g0). }
              match goal with Hm : bId ∈ _ |- _ => apply groups_has_keys in Hm end.
              congruence.
           ++ apply list_elem_of_singleton in Hin. injection Hin as ->.
              symmetry. by apply Hno.
      * assert (Hin' : (k, g) ∈ groups).
        { destruct (groups_has groups bId); [done|].
          apply elem_of_app in Hin as [Hin|Hin]; [done|].
          apply list_elem_of_singleton in Hin. congruence. }
        apply Hgr in Hin' as (? & ? & ?). split; [done|]. split; [done|].
        rewrite List.filter_app. simpl. rewrite (Hother k Hk). by rewrite app_nil_r.
    + intros k Hk Hne. assert (Hkb : k <> bId).
      { intros ->. revert Hk.
        assert (groups_has (groups_push bId s
                  (if groups_has groups bId then groups else groups ++ [(bId, [])])) bId
                = true) as ->; [|done].
        apply groups_has_keys. rewrite groups_push_keys.
        destruct (groups_has groups bId) eqn:Eh; [by apply groups_has_keys|].
        rewrite map_app. apply elem_of_app. right. simpl. by left. }
      rewrite List.filter_app. simpl. rewrite (Hother k Hkb), app_nil_r.
      apply Hno; [|done]. destruct (groups_has groups k) eqn:Ek; [|done].
      exfalso. apply groups_has_keys in Ek.
      assert (groups_has (groups_push bId s
                (if groups_has groups bId then groups else groups ++ [(bId, [])])) k
              = true) as Hc; [|congruence].
      apply groups_has_keys. rewrite groups_push_keys.
      destruct (groups_has groups bId); [done|].
      rewrite map_app. apply elem_of_app. by left.
  - assert (Hnone : forall k, k <> "" -> batch_is k s = false).
    { intros k Hk. destruct (batch_is k s) eqn:E; [|done].
      apply batch_is_truthy in E; [congruence|done]. }
    split; [|split; [|split]]; simpl.
    + rewrite List.filter_app. simpl. rewrite Etr. simpl. by rewrite Hind.
    + done.
    + intros k g Hin. apply Hgr in Hin as (? & ? & ?). split; [done|]. split; [done|].
      rewrite List.filter_app. simpl. rewrite (Hnone k) by done. by rewrite app_nil_r.
    + intros k Hk Hne. rewrite List.filter_app. simpl. rewrite (Hnone k) by done.
      rewrite app_nil_r. by apply Hno.
Qed.

Lemma groupedSells_inv (sells : list (Sell num)) : groups_inv sells (groupedSells sells).
Proof.
  unfold groupedSells. induction sells as [|s sells IH] using rev_ind.
  - split; [done|]. split; [constructor|]. split; [|done].
    intros k g Hin. by apply elem_of_nil in Hin.
  - rewrite fold_left_app. simpl. by apply groupedSells_step_inv.
Qed.

(** [groupedSells] shares out the sales of a lot: [individual] holds the
    sales without a batch id, in order; the groups have distinct keys, none
    is empty (so [sells[0]] is there), and the group of a key holds the
    sales with that batch id, in order; every sale with a batch id is in
    the group of that id. *)
Theorem groupedSells_partition (sells : list (Sell num)) :
  (groupedSells sells).2 = List.filter (fun s => negb (str_truthy (s_batch_id s))) sells /\
  NoDup (map fst (groupedSells sells).1) /\
  (forall k g, (k, g) ∈ (groupedSells sells).1 ->
     k <> "" /\ g <> [] /\ g = List.filter (batch_is k) sells) /\
  (forall s k, s ∈ sells -> s_batch_id s = Some k -> k <> "" ->
     exists g, (k, g) ∈ (groupedSells sells).1 /\ s ∈ g).
Proof.
  destruct (groupedSells_inv sells) as (Hind & Hnd & Hgr & Hno).
  split; [done|]. split; [done|]. split; [done|].
  intros s k Hs Hk Hne.
  destruct (groups_has (groupedSells sells).1 k) eqn:E.
  - apply groups_has_keys, list_elem_of_fmap in E as ([k' g] & Hk' & Hin).
    simpl in Hk'. subst k'. exists g. split; [done|].
    apply Hgr in Hin as (_ & _ & ->).
    apply list_elem_of_In, filter_In. split; [by apply list_elem_of_In|].
    unfold batch_is. by rewrite Hk, bool_decide_eq_true_2.
  - exfalso. specialize (Hno k E Hne).
    assert (s ∈ List.filter (batch_is k) sells) as Hin.
    { apply list_elem_of_In, filter_In. split; [by apply list_elem_of_In|].
      unfold batch_is. by rewrite Hk, bool_decide_eq_true_2. }
    rewrite Hno in Hin. by apply elem_of_nil in Hin.
Qed.

Lemma find_none_all {A : Type} (f : A -> bool) (l : list A) :
  find f l = None -> Forall (fun x => f x = false) l.
Proof.
  induction l as [|x l IH]; simpl; [constructor|].
  destruct (f x) eqn:E; [discriminate|]. intros Hf. constructor; [done|by apply IH].
Qed.

(** A lot card is only made for a lot none of whose sales has a batch id:
    on every lot card of the display list [groupedSells] has no group, and
    all the sales of the lot are listed one by one. *)
Theorem lot_cards_list_sales_individually (ts : list (Trade num)) (it : Item num)
    (t : Trade num) :
  it ∈ displayItems getTime ts ->
  i_data it = TradeData t ->
  t ∈ ts /\
  Forall (fun s => str_truthy (s_batch_id s) = false) (t_sells t) /\
  groupedSells (t_sells t) = ([], t_sells t).
Proof.
  intros Hin Hdata. apply displayItems_elem in Hin as [(t0 & Ht0 & ->)|(b & _ & ->)];
    [|discriminate]. simpl in Hdata. injection Hdata as ->.
  unfold standalone_trades in Ht0. destruct (group_trades_inv ts) as (Hst & _ & _).
  rewrite Hst in Ht0. apply list_elem_of_In, filter_In in Ht0 as [Hin Hlot].
  apply list_elem_of_In in Hin. split; [done|].
  assert (Hall : Forall (fun s => str_truthy (s_batch_id s) = false) (t_sells t)).
  { apply negb_true_iff in Hlot. unfold lot_batch in Hlot.
    destruct (find_batchSell t) as [s|] eqn:E.
    - apply find_some in E as [_ E]. congruence.
    - by apply find_none_all in E. }
  split; [done|].
  destruct (groupedSells_inv (t_sells t)) as (Hind & _ & Hgr & _).
  destruct (groupedSells (t_sells t)) as [groups individual] eqn:Eg. simpl in *.
  f_equal.
  - destruct groups as [|[k g] groups]; [done|]. exfalso.
    destruct (Hgr k g) as (Hk & Hg & Hgeq); [by left|].
    destruct g as [|s g]; [done|].
    assert (s ∈ List.filter (batch_is k) (t_sells t)) as Hs by (rewrite <- Hgeq; by left).
    apply list_elem_of_In, filter_In in Hs as [Hs Hb].
    rewrite Forall_forall in Hall. apply list_elem_of_In in Hs.
    specialize (Hall s Hs). simpl in Hall.
    rewrite (batch_is_truthy k s Hb Hk) in Hall. discriminate.
  - rewrite Hind. apply filter_keep_all. eapply Forall_impl; [exact Hall|].
    intros s Hs. simpl in Hs. by rewrite Hs.
Qed.

End Groups.

(** ** The statements on the sample ledgers *)

Section OnSamples.
Import Sample.
Local Open Scope float_scope.

(** C1 as the specification states it does not hold: lots 1 and 2 were
    sold in one batch; deleting that batch from its card leaves a ledger
    without them, where they were to stay and reappear on their own. *)
Lemma C1_member_lots_deleted :
  map lot_summary (trades st_batch) =
    [(3, 4, []); (2, 7, [(7, 5, Some batch_name)]); (1, 3, [(3, 5, Some batch_name)])] /\
  map lot_summary (trades (handleDeleteBatch st_batch batch_name)) = [(3, 4, [])].
Proof. split; vm_compute; reflexivity. Qed.

(** C2: a lot of 10 grams with a sale of 6 is edited down to 5 grams; the
    edit goes through, the lot then has 6 grams sold out of 5, which is
    above 5 + 0.00001, and a remaining quantity of -1. *)
Lemma C2_edit_lot_overdraws :
  map lot_summary (trades st_ten_sold6) = [(4, 10, [(6, 0, None)])] /\
  map lot_summary (trades st_ten_edited) = [(4, 5, [(6, 0, None)])] /\
  map (fun t => num_leb (soldWeight t) (num_add (t_quantity t) overdraft_tol))
      (trades st_ten_edited) = [false] /\
  map remaining (trades st_ten_edited) = [-1] /\
  map (fun t => num_ltb (remaining t) (PrimFloat.opp overdraft_tol))
      (trades st_ten_edited) = [true].
Proof. repeat split; vm_compute; reflexivity. Qed.

(** C5: lots 1 and 2 are ticked, lot 1 is then sold in full on its own and
    stays ticked; the batch submit with a total fee of 10 divides by the two
    ticked lots and creates one sale, on lot 2, with a fee of 5: the fees of
    the created sales add up to 5, not 10. *)
Lemma C5_stale_selection_fee :
  selectedTradeIds st_stale_selection = [1; 2] /\
  map lot_summary (trades st_stale_selection) =
    [(3, 4, []); (2, 7, []); (1, 3, [(3, 0, None)])] /\
  map lot_summary (trades st_stale_batch) =
    [(3, 4, []); (2, 7, [(7, 5, Some batch_name)]); (1, 3, [(3, 0, None)])] /\
  created_fees batch_name (trades st_stale_batch) = [5] /\
  sum_by (fun fee => fee) (created_fees batch_name (trades st_stale_batch)) = 5.
Proof. repeat split; vm_compute; reflexivity. Qed.

(** A lot of 10 grams bought at 500: 10 grams remain and it is not fully
    sold; sold in full at 550 with a fee of 20, the profit is 480, nothing
    remains and the lot is fully sold. *)
Lemma whole_lot_sale_profit :
  map remaining (trades st_ten) = [10] /\
  map tradeItem_isFullySold (trades st_ten) = [false] /\
  totalProfit (stats (trades st_ten_sold_out)) = 480 /\
  activeWeight (stats (trades st_ten_sold_out)) = 0 /\
  map tradeItem_totalProfit (trades st_ten_sold_out) = [480] /\
  map tradeItem_isFullySold (trades st_ten_sold_out) = [true].
Proof. repeat split; vm_compute; reflexivity. Qed.

(** The sale of 6 on the lot of 10 is edited: 10 is accepted, since the
    sale under edit does not count against itself, 11 is rejected and
    leaves the ledger as it was. *)
Lemma edit_sale_excludes_itself :
  let accepted :=
    handleSellSubmit st_ten_edit_sale (sell 550 10 0 "2024-02-01T10:00") 9 random in
  let rejected :=
    handleSellSubmit st_ten_edit_sale (sell 550 11 0 "2024-02-01T10:00") 9 random in
  accepted.2 = Applied /\
  map lot_summary (trades accepted.1) = [(4, 10, [(10, 0, None)])] /\
  rejected.2 = Overdraft /\
  map lot_summary (trades rejected.1) = [(4, 10, [(6, 0, None)])].
Proof. repeat split; vm_compute; reflexivity. Qed.

(** C3 on the lot of 10 grams with 6 sold: a new sale of 5 is more than
    10 - 6 + 0.00001, so it is rejected and the state stays. *)
Lemma C3_overdraft_iff_witness :
  let st := startSell st_ten_sold6 4 in
  let form := sell 560 5 0 "2024-02-02T10:00" in
  exists trade,
    isBatchSelling st = false /\
    target_tradeId st = Some 4 /\
    find (fun t => num_eqb (t_id t) 4) (trades st) = Some trade /\
    lot_summary trade = (4, 10, [(6, 0, None)]) /\
    (handleSellSubmit st form 9 random).2 = Overdraft /\
    (handleSellSubmit st form 9 random).1 = st.
Proof.
  intros st form.
  assert (Hb : isBatchSelling st = false) by reflexivity.
  assert (Ht : target_tradeId st = Some 4) by (vm_compute; reflexivity).
  destruct (find (fun t => num_eqb (t_id t) 4) (trades st)) as [trade|] eqn:Hf;
    [|vm_compute in Hf; discriminate Hf].
  exists trade.
  destruct (C3_overdraft_iff st form 9 random 4 trade Hb Ht Hf) as [Hiff Hsame].
  assert (Hlot : lot_summary trade = (4, 10, [(6, 0, None)])).
  { vm_compute in Hf. injection Hf as <-. vm_compute. reflexivity. }
  assert (Hrej : (handleSellSubmit st form 9 random).2 = Overdraft).
  { apply Hiff. vm_compute in Hf. injection Hf as <-. vm_compute. reflexivity. }
  exact (conj Hb (conj Ht (conj eq_refl (conj Hlot (conj Hrej (Hsame Hrej)))))).
Defined.

(** C4 on the batch sale of lots 1 and 2: lot 2, ticked and with 7 grams
    left, gets one sale of 7 grams with fee 10 / 2 and the batch id. *)
Lemma C4_batch_sale_witness :
  let st := startBatchSell st_selected in
  let form := sell 600 10 10 "2024-02-01T10:00" in
  exists lot2,
    isBatchSelling st = true /\
    trades st !! 1%nat = Some lot2 /\
    lot_summary lot2 = (2, 7, []) /\
    includes (selectedTradeIds st) (t_id lot2) = true /\
    num_leb (remaining lot2) num_zero = false /\
    lot_summary <$> trades (handleSellSubmit st form batch_now random).1 !! 1%nat =
      Some (2, 7, [(7, 5, Some batch_name)]).
Proof.
  intros st form.
  assert (Hb : isBatchSelling st = true) by reflexivity.
  destruct (trades st !! 1%nat) as [lot2|] eqn:Hi; [|vm_compute in Hi; discriminate Hi].
  exists lot2.
  destruct (C4_batch_sale st form batch_now random 1 lot2 Hb Hi)
    as (_ & _ & Hnew & _ & _).
  vm_compute in Hi. injection Hi as <-.
  assert (Hsel : includes (selectedTradeIds st)
                   (t_id {| t_id := 2; t_buy_price := 520; t_quantity := 7;
                            t_buy_date := "2024-01-02T10:00"; t_notes := None;
                            t_sells := [] |}) = true)
    by (vm_compute; reflexivity).
  assert (Hpos : num_leb (remaining
                   {| t_id := 2; t_buy_price := 520; t_quantity := 7;
                      t_buy_date := "2024-01-02T10:00"; t_notes := None;
                      t_sells := [] |}) num_zero = false)
    by (vm_compute; reflexivity).
  refine (conj Hb (conj eq_refl (conj eq_refl (conj Hsel (conj Hpos _))))).
  rewrite (Hnew Hsel Hpos). vm_compute. reflexivity.
Defined.

(** C6 on lots of 7 grams at 520 and 3 grams at 500 sold together at 600
    with a total fee of 10: total quantity 10, buy price 5140 / 10 = 514,
    total profit 850, total fee 10. *)
Lemma C6_batch_view_totals_witness :
  exists b,
    batch_views (trades st_batch) = [b] /\
    map t_id (b_trades b) = [2; 1] /\
    b_totalQuantity b = 10 /\
    sum_by t_quantity (b_trades b) = 10 /\
    sum_by (fun t => num_mul (t_buy_price t) (t_quantity t)) (b_trades b) = 5140 /\
    b_buyPrice b = 514 /\
    b_totalProfit b = 850 /\
    b_totalFee b = 10.
Proof.
  destruct (batch_views (trades st_batch)) as [|b bs] eqn:Hv;
    [vm_compute in Hv; discriminate Hv|].
  assert (Hin : b ∈ batch_views (trades st_batch)) by (rewrite Hv; left).
  destruct (C6_batch_view_totals _ b Hin) as (Htrs & Hq & Hprice & Hprofit & Hfee).
  exists b. vm_compute in Hv. injection Hv as <- <-.
  refine (conj eq_refl (conj eq_refl (conj _ (conj eq_refl (conj eq_refl
            (conj _ (conj _ _))))))).
  - rewrite Hq. vm_compute. reflexivity.
  - rewrite Hprice. vm_compute. reflexivity.
  - rewrite Hprofit. vm_compute. reflexivity.
  - rewrite Hfee. vm_compute. reflexivity.
Defined.

(** C8 on a ledger with two open lots, one batch and one lot sold out: the
    open lots come first, the later buy before the earlier. *)
Lemma C8_display_order_witness :
  map item_summary (displayItems getTime (trades st_display)) =
    [(false, 1706868000000%Z, false); (false, 1704276000000%Z, false);
     (true, 1706781600000%Z, true); (false, 1704103200000%Z, true)] /\
  exists x y rest,
    displayItems getTime (trades st_display) = [] ++ x :: [] ++ y :: rest /\
    i_isFullySold x = i_isFullySold y /\
    (i_timestamp y <= i_timestamp x)%Z.
Proof.
  split; [vm_compute; reflexivity|].
  destruct (C8_display_order getTime (trades st_display)) as (_ & _ & _ & Hord).
  destruct (displayItems getTime (trades st_display)) as [|x [|y rest]] eqn:E;
    [vm_compute in E; discriminate E|vm_compute in E; discriminate E|].
  exists x, y, rest.
  destruct (Hord [] x [] y rest eq_refl) as [_ Hts].
  assert (Hflags : i_isFullySold x = i_isFullySold y).
  { vm_compute in E. injection E as <- <- _. reflexivity. }
  exact (conj eq_refl (conj Hflags (Hts Hflags))).
Defined.

(** C9 on a saved text that is no JSON. *)
Lemma C9_unparseable_payload_witness :
  "{broken" <> "" /\
  JSON_parse "{broken" = Thrown "SyntaxError: Unexpected token" /\
  mount JSON_parse JSON_stringify (Some "{broken") =
    Returned {| w_state := setLoading initial_state false;
                w_storage := Some "[]";
                w_console := [("Failed to parse saved trades",
                               "SyntaxError: Unexpected token")] |}.
Proof.
  assert (Hne : "{broken" <> "") by discriminate.
  exact (conj Hne (conj eq_refl
           (C9_unparseable_payload JSON_parse JSON_stringify _ _ Hne eq_refl))).
Defined.

(** C10 on a batch whose lot 2 holds 9 grams with 7 sold: the lot alone
    would not count as fully sold, its batch view does. *)
Lemma C10_batch_views_closed_witness :
  map lot_summary (trades st_batch_edited) =
    [(3, 4, []); (2, 9, [(7, 5, Some batch_name)]); (1, 3, [(3, 5, Some batch_name)])] /\
  map tradeItem_isFullySold (trades st_batch_edited) = [false; false; true] /\
  exists it,
    displayItems getTime (trades st_batch_edited) !! 1%nat = Some it /\
    is_batch_item it = true /\
    i_isFullySold it = true.
Proof.
  split; [vm_compute; reflexivity|]. split; [vm_compute; reflexivity|].
  destruct (displayItems getTime (trades st_batch_edited) !! 1%nat) as [it|] eqn:E;
    [|vm_compute in E; discriminate E].
  exists it.
  assert (Hin : it ∈ displayItems getTime (trades st_batch_edited))
    by (eapply list_elem_of_lookup_2; exact E).
  assert (Hb : is_batch_item it = true)
    by (vm_compute in E; injection E as <-; reflexivity).
  exact (conj eq_refl (conj Hb (C10_batch_views_closed getTime _ it Hin Hb))).
Defined.

(** The ledger of one lot of 10 grams is saved by the sync effect and read
    back by the next mount. *)
Lemma saved_ledger_is_loaded_witness :
  let w := {| w_state := st_ten; w_storage := None; w_console := [] |} in
  loading st_ten = false /\
  JSON_parse_ten (JSON_stringify (trades st_ten)) = Returned (trades st_ten) /\
  exists w',
    mount JSON_parse_ten JSON_stringify (w_storage (syncEffect JSON_stringify st_ten w))
      = Returned w' /\
    map lot_summary (trades (w_state w')) = [(4, 10, [])] /\
    w_console w' = [].
Proof.
  intros w.
  assert (Hl : loading st_ten = false) by reflexivity.
  assert (Hne : JSON_stringify (trades st_ten) <> "") by discriminate.
  assert (Hp : JSON_parse_ten (JSON_stringify (trades st_ten)) = Returned (trades st_ten))
    by reflexivity.
  destruct (saved_ledger_is_loaded JSON_parse_ten JSON_stringify st_ten w Hl Hne Hp)
    as (w' & Hm & Ht & Hc & _).
  refine (conj Hl (conj Hp (ex_intro _ w' (conj Hm (conj _ Hc))))).
  rewrite Ht. vm_compute. reflexivity.
Defined.

(** A buy at clock reading 5 on the ledger of lots 1, 2 and 3, deleted
    again. *)
Lemma delete_undoes_create_lot_witness :
  let form := buy 530 2 "2024-02-02T10:00" in
  map lot_summary (trades (handleSubmit st_lots form 5)) =
    [(5, 2, []); (3, 4, []); (2, 7, []); (1, 3, [])] /\
  handleDelete (handleSubmit st_lots form 5) 5 = st_lots.
Proof.
  intros form.
  assert (Hlots : Forall (fun t => num_eqb (t_id t) (num_of_Z 5) = false) (trades st_lots)).
  { repeat constructor. }
  assert (Hsel : Forall (fun i => num_eqb i (num_of_Z 5) = false) (selectedTradeIds st_lots)).
  { constructor. }
  split; [vm_compute; reflexivity|].
  exact (delete_undoes_create_lot st_lots form 5 eq_refl eq_refl Hlots Hsel).
Defined.

(** A sale of 6 grams of the lot of 10 at clock reading 7, deleted again. *)
Lemma delete_undoes_create_sale_witness :
  let st := startSell st_ten 4 in
  let form := sell 550 6 0 "2024-02-01T10:00" in
  map lot_summary (trades (handleSellSubmit st form 7 random).1) = [(4, 10, [(6, 0, None)])] /\
  trades (handleDeleteSell (handleSellSubmit st form 7 random).1 4 7) = trades st.
Proof.
  intros st form.
  assert (Ht : target_tradeId st = Some 4) by (vm_compute; reflexivity).
  assert (Hfresh : Forall (fun t => Forall (fun s => num_eqb (s_id s) (num_of_Z 7) = false)
                                      (t_sells t)) (trades st)).
  { repeat constructor. }
  split; [vm_compute; reflexivity|].
  exact (delete_undoes_create_sale st form 7 random 4 eq_refl eq_refl Ht eq_refl Hfresh).
Defined.

(** Ticking lot 2 of the ledger of lots 1, 2 and 3, twice. *)
Lemma toggle_flips_membership_witness :
  includes (selectedTradeIds st_lots) 2 = false /\
  includes (selectedTradeIds (toggleSelection st_lots 2)) 2 = true /\
  selectedTradeIds (toggleSelection (toggleSelection st_lots 2) 2) = selectedTradeIds st_lots.
Proof.
  assert (Hsame : forall i : float, num_same i 2 = num_eqb i 2).
  { intros i. change (float_same i 2 = PrimFloat.eqb i 2). unfold float_same.
    replace (PrimFloat.is_nan 2) with false by (vm_compute; reflexivity).
    by rewrite andb_false_r, orb_false_r. }
  assert (Hrefl : num_same (2 : float) 2 = true) by (vm_compute; reflexivity).
  assert (Hout : includes (selectedTradeIds st_lots) 2 = false) by reflexivity.
  destruct (toggle_flips_membership st_lots 2 Hsame Hrefl) as (Hflip & Htwice & _).
  refine (conj Hout (conj _ (Htwice Hout))).
  rewrite Hflip, Hout. reflexivity.
Defined.

(** The lot of 10 grams with 6 sold, edited to 12 grams at 510: the sale
    stays. *)
Lemma lot_edit_keeps_sales_witness :
  let form := buy 510 12 "2024-01-01T10:00" in
  exists lot,
    trades st_ten_sold6 = [lot] /\
    map lot_summary (trades (handleSubmit (startEditTrade st_ten_sold6 lot) form 8)) =
      [(4, 12, [(6, 0, None)])] /\
    map t_sells (trades (handleSubmit (startEditTrade st_ten_sold6 lot) form 8)) =
      map t_sells (trades st_ten_sold6).
Proof.
  intros form.
  destruct (trades st_ten_sold6) as [|lot l] eqn:Hts; [vm_compute in Hts; discriminate Hts|].
  destruct l as [|lot' l]; [|vm_compute in Hts; discriminate Hts].
  exists lot.
  destruct (lot_edit_keeps_sales (startEditTrade st_ten_sold6 lot) form 8 lot eq_refl)
    as (_ & Hsells & _).
  refine (conj eq_refl (conj _ _)).
  - vm_compute in Hts. injection Hts as <-. vm_compute. reflexivity.
  - rewrite Hsells.
    change (trades (startEditTrade st_ten_sold6 lot)) with (trades st_ten_sold6).
    by rewrite Hts.
Defined.

(** The edit form opened on the lot of 10 grams with 6 sold and saved as it
    is. *)
Lemma saving_unchanged_lot_form_is_identity_witness :
  exists lot,
    trades st_ten_sold6 = [lot] /\
    lot_summary lot = (4, 10, [(6, 0, None)]) /\
    trades (handleSubmit (startEditTrade st_ten_sold6 lot) (tradeForm_of float_reparse lot) 8)
      = trades st_ten_sold6.
Proof.
  destruct (trades st_ten_sold6) as [|lot l] eqn:Hts; [vm_compute in Hts; discriminate Hts|].
  destruct l as [|lot' l]; [|vm_compute in Hts; discriminate Hts].
  exists lot.
  assert (Huniq : forall t', t' ∈ trades st_ten_sold6 ->
                    num_eqb (t_id t') (t_id lot) = true -> t' = lot).
  { intros t' Hin _. rewrite Hts in Hin. by apply list_elem_of_singleton in Hin. }
  assert (Hlot : lot_summary lot = (4, 10, [(6, 0, None)]) /\
                 float_reparse (t_buy_price lot) = t_buy_price lot /\
                 float_reparse (t_quantity lot) = t_quantity lot /\
                 t_notes lot <> Some "").
  { vm_compute in Hts. injection Hts as <-. repeat split; try (vm_compute; reflexivity).
    discriminate. }
  destruct Hlot as (Hsum & Hprice & Hquantity & Hnotes).
  pose proof (saving_unchanged_lot_form_is_identity float_reparse st_ten_sold6 lot 8
                Huniq Hprice Hquantity Hnotes) as Hsame.
  rewrite Hts in Hsame.
  exact (conj eq_refl (conj Hsum Hsame)).
Defined.

(** The display list of the ledger with two open lots, one batch and one
    lot sold out has a lot card; its sales are listed one by one. *)
Lemma lot_cards_list_sales_individually_witness :
  exists it t,
    it ∈ displayItems getTime (trades st_display) /\
    i_data it = TradeData t /\
    lot_summary t = (6, 2, []) /\
    groupedSells (t_sells t) = ([], t_sells t).
Proof.
  destruct (displayItems getTime (trades st_display)) as [|it l] eqn:Hd;
    [vm_compute in Hd; discriminate Hd|].
  assert (Hin : it ∈ displayItems getTime (trades st_display)) by (rewrite Hd; left).
  assert (Hit : { t | i_data it = TradeData t /\ lot_summary t = (6, 2, []) }).
  { vm_compute in Hd. injection Hd as <- _. eexists. split; [reflexivity|].
    vm_compute. reflexivity. }
  destruct Hit as (t & Hdata & Hsum).
  destruct (lot_cards_list_sales_individually getTime (trades st_display) it t Hin Hdata)
    as (_ & _ & Hgroups).
  rewrite <- Hd.
  exact (ex_intro _ it (ex_intro _ t (conj Hin (conj Hdata (conj Hsum Hgroups))))).
Defined.

(** The batch sale of lots 1 and 2: lot 2 moves from its own card to the
    card of the batch. *)
Lemma batch_sale_moves_lot_to_batch_card_witness :
  let st := startBatchSell st_selected in
  let form := sell 600 10 10 "2024-02-01T10:00" in
  let st' := (handleSellSubmit st form batch_now random).1 in
  exists lot2 lot2',
    trades st !! 1%nat = Some lot2 /\
    gets_sale (selectedTradeIds st) lot2 = true /\
    lot_summary lot2 = (2, 7, []) /\
    trades st' !! 1%nat = Some lot2' /\
    lot_batch lot2' = Some batch_name /\
    (lot2' ∉ standalone_trades (trades st')) /\
    (exists b, b ∈ batch_views (trades st') /\ b_id b = batch_name /\ lot2' ∈ b_trades b).
Proof.
  intros st form st'.
  destruct (trades st !! 1%nat) as [lot2|] eqn:Hi; [|vm_compute in Hi; discriminate Hi].
  assert (Hlot : gets_sale (selectedTradeIds st) lot2 = true /\ lot_summary lot2 = (2, 7, [])).
  { vm_compute in Hi. injection Hi as <-. split; vm_compute; reflexivity. }
  destruct Hlot as [Hg Hsum].
  destruct (batch_sale_moves_lot_to_batch_card st form batch_now random 1 lot2 eq_refl Hi Hg)
    as (lot2' & Hi' & _ & Hl & Hns & Hv & _).
  exact (ex_intro _ lot2 (ex_intro _ lot2'
           (conj eq_refl (conj Hg (conj Hsum (conj Hi' (conj Hl (conj Hns Hv)))))))).
Defined.

(** The batch of lots 1 and 2 deleted from its card on the ledger with two
    open lots and one lot sold out: no batch card is left, and the three
    lot cards stay. *)
Lemma delete_batch_removes_its_card_only_witness :
  let st' := handleDeleteBatch st_display batch_name in
  map b_id (batch_views (trades st_display)) = [batch_name] /\
  Forall (fun b => b_id b <> batch_name) (batch_views (trades st')) /\
  map t_id (standalone_trades (trades st')) = [9; 6; 3] /\
  standalone_trades (trades st') = standalone_trades (trades st_display).
Proof.
  intros st'.
  assert (Hne : batch_name <> "") by discriminate.
  destruct (delete_batch_removes_its_card_only st_display batch_name Hne)
    as (Hgone & Hsame & _).
  refine (conj _ (conj Hgone (conj _ Hsame))); vm_compute; reflexivity.
Defined.

(** The ticked lots of 3 and 7 grams: 10 grams announced, 10 grams sold. *)
Lemma batch_form_quantity_is_sold_witness :
  let st := startBatchSell st_selected in
  let form := sell 600 10 10 "2024-02-01T10:00" in
  isBatchSelling st = true /\
  selectedTotalWeight st = 10 /\
  sum_by (fun q => q)
    (created_quantities batch_name
       (trades (handleSellSubmit st form batch_now random).1)) = 10.
Proof.
  intros st form.
  assert (Hb : isBatchSelling st = true) by reflexivity.
  assert (Hnew : forall t, t ∈ trades st -> forall s, s ∈ t_sells t ->
                   s_batch_id s <> Some ("batch-" +:+ pretty batch_now)).
  { intros t Ht s Hs. simpl in Ht.
    repeat (apply elem_of_cons in Ht as [->|Ht]; [by apply elem_of_nil in Hs|]).
    by apply elem_of_nil in Ht. }
  assert (Hpos : Forall (fun t => includes (selectedTradeIds st) (t_id t) = true ->
                                  num_leb (remaining t) num_zero = false) (trades st)).
  { repeat constructor; intros _; vm_compute; reflexivity. }
  assert (Hw : selectedTotalWeight st = 10) by (vm_compute; reflexivity).
  pose proof (batch_form_quantity_is_sold st form batch_now random Hb Hnew Hpos) as Hsold.
  refine (conj Hb (conj Hw _)).
  change batch_name with ("batch-" +:+ pretty batch_now).
  rewrite Hsold. exact Hw.
Defined.

(** The edit form opened on the sale of 6 grams of the lot of 10 and saved
    as it is: applied, and the ledger is as it was. *)
Lemma saving_unchanged_sale_form_is_identity_witness :
  exists lot s,
    trades st_ten_sold6 = [lot] /\
    t_sells lot = [s] /\
    lot_summary lot = (4, 10, [(6, 0, None)]) /\
    (handleSellSubmit (startEditSell st_ten_sold6 (t_id lot) s)
       (sellForm_of float_reparse s) 9 random).2 = Applied /\
    trades (handleSellSubmit (startEditSell st_ten_sold6 (t_id lot) s)
              (sellForm_of float_reparse s) 9 random).1 = trades st_ten_sold6.
Proof.
  destruct (trades st_ten_sold6) as [|lot l] eqn:Hts; [vm_compute in Hts; discriminate Hts|].
  destruct l as [|lot' l]; [|vm_compute in Hts; discriminate Hts].
  destruct (t_sells lot) as [|s ss] eqn:Hss;
    [vm_compute in Hts; injection Hts as <-; discriminate Hss|].
  destruct ss as [|s' ss]; [|vm_compute in Hts; injection Hts as <-; discriminate Hss].
  assert (Hlots : forall t', t' ∈ trades st_ten_sold6 ->
                    num_eqb (t_id t') (t_id lot) = true -> t' = lot).
  { intros t' Hin _. rewrite Hts in Hin. by apply list_elem_of_singleton in Hin. }
  assert (Hsales : forall s', s' ∈ t_sells lot -> num_eqb (s_id s') (s_id s) = true -> s' = s).
  { intros s' Hin _. rewrite Hss in Hin. by apply list_elem_of_singleton in Hin. }
  assert (Hfacts : lot_summary lot = (4, 10, [(6, 0, None)]) /\
                   float_reparse (s_sell_price s) = s_sell_price s /\
                   float_reparse (s_quantity s) = s_quantity s /\
                   float_reparse (s_fee s) = s_fee s /\
                   s_notes s <> Some "" /\
                   (handleSellSubmit (startEditSell st_ten_sold6 (t_id lot) s)
                      (sellForm_of float_reparse s) 9 random).2 = Applied).
  { vm_compute in Hts. injection Hts as <-. vm_compute in Hss. injection Hss as <-.
    repeat split; try (vm_compute; reflexivity). discriminate. }
  destruct Hfacts as (Hsum & Hrp & Hrq & Hrf & Hnotes & Hout).
  destruct (saving_unchanged_sale_form_is_identity float_reparse st_ten_sold6 lot s 9 random
              Hlots Hsales Hrp Hrq Hrf Hnotes eq_refl eq_refl) as [Hsame _].
  rewrite Hts in Hsame.
  exact (ex_intro _ lot (ex_intro _ s
           (conj eq_refl (conj Hss (conj Hsum (conj Hout Hsame)))))).
Defined.

(** Near the bound the same save is rejected: on the lot of 0.021 grams
    with sales of 0.002 and 0.019010000000000003 grams, both accepted, the
    sale of 0.002 saved as it is is an overdraft, and the ledger stays. *)
Lemma unchanged_sale_form_rejected_near_bound :
  exists lot s,
    trades st_near_bound = [lot] /\
    map s_quantity (t_sells lot) = [0.019010000000000003; 0.002] /\
    t_sells lot !! 1%nat = Some s /\
    handleSellSubmit (startEditSell st_near_bound (t_id lot) s)
      (sellForm_of float_reparse s) 9 random
    = (startEditSell st_near_bound (t_id lot) s, Overdraft).
Proof.
  destruct (trades st_near_bound) as [|lot l] eqn:Hts; [vm_compute in Hts; discriminate Hts|].
  destruct l as [|lot' l]; [|vm_compute in Hts; discriminate Hts].
  vm_compute in Hts. injection Hts as <-.
  eexists. eexists. split; [reflexivity|]. split; [vm_compute; reflexivity|].
  split; [reflexivity|]. vm_compute. reflexivity.
Qed.

(** The chart of the ledger with one sale of 0.975 grams at 551.85 from a
    lot bought at 500: the profit of the sale is 50.553750000000022, its
    point on the chart holds 50.55. *)
Lemma chart_rounds_profit :
  map (fun p => saleProfit p.1 p.2) (all_sales (trades st_chart)) = [50.553750000000022] /\
  chartData getTime formatDate float_round2 (trades st_chart) = [("02/01 10:00", 50.55)].
Proof. split; vm_compute; reflexivity. Qed.

(** A saved [null]: the render after the load effect throws. *)
Lemma mount_on_null :
  mountParsed JSON_parse_any JSON_stringify (Some "null") = Thrown "TypeError".
Proof. reflexivity. Qed.

End OnSamples.
